(** * YOLO label validator: a shallow embedding of [validate_yolo_labels.py]

    The development follows the Python script function by function:
    [LabelValidationError], [validate_yolo_line], [validate_label_file],
    [scan_dataset] and [main].  The interpreter facilities the script relies
    on ([str.strip], [str.split], [int], [float], [repr], [format], the UTF-8
    text layer of [open]) are modelled first, as CPython 3.11 implements
    them; the file system is an explicit value passed to the functions that
    read it, and [print] appends to an explicit list of output lines.

    A Python [str] is a sequence of Unicode code points, a [float] is an
    IEEE 754 binary64 number ([spec_float] with precision 53 and maximal
    exponent 1024), an [int] is an unbounded integer. *)

From Stdlib Require Import ZArith NArith List Bool Lia.
From Stdlib Require Import Strings.String Strings.Ascii Strings.Byte.
From Stdlib Require Import SpecFloat.
From Stdlib Require Import Sorted Permutation.
Import ListNotations.

(** ** Unicode code points and the character classes CPython consults *)

Module Unicode.

Definition char := N.

Definition in_ranges (tbl : list (N * N)) (c : char) : bool :=
  existsb (fun r => (fst r <=? c)%N && (c <=? snd r)%N) tbl.

(** [Py_UNICODE_ISSPACE]: bidirectional class WS, B or S, or category Zs. *)
Definition whitespace_ranges : list (N * N) :=
  [ (0x9, 0xd); (0x1c, 0x20); (0x85, 0x85); (0xa0, 0xa0); (0x1680, 0x1680);
    (0x2000, 0x200a); (0x2028, 0x2029); (0x202f, 0x202f); (0x205f, 0x205f);
    (0x3000, 0x3000) ]%N.

Definition isspace (c : char) : bool := in_ranges whitespace_ranges c.

(** [Py_ISSPACE]: the six ASCII blanks the C-level number parsers skip. *)
Definition ascii_isspace (c : char) : bool :=
  ((0x9 <=? c) && (c <=? 0xd) || (c =? 0x20))%N.

(** Code points of the digit zero of every decimal digit run (category Nd,
    Unicode 14.0.0); the nine following code points are the digits 1-9. *)
Definition decimal_zeros : list N :=
  [
    0x30; 0x660; 0x6f0; 0x7c0; 0x966; 0x9e6; 0xa66; 0xae6; 0xb66; 0xbe6; 0xc66;
    0xce6; 0xd66; 0xde6; 0xe50; 0xed0; 0xf20; 0x1040; 0x1090; 0x17e0; 0x1810;
    0x1946; 0x19d0; 0x1a80; 0x1a90; 0x1b50; 0x1bb0; 0x1c40; 0x1c50; 0xa620;
    0xa8d0; 0xa900; 0xa9d0; 0xa9f0; 0xaa50; 0xabf0; 0xff10; 0x104a0; 0x10d30;
    0x11066; 0x110f0; 0x11136; 0x111d0; 0x112f0; 0x11450; 0x114d0; 0x11650;
    0x116c0; 0x11730; 0x118e0; 0x11950; 0x11c50; 0x11d50; 0x11da0; 0x16a60;
    0x16ac0; 0x16b50; 0x1d7ce; 0x1d7d8; 0x1d7e2; 0x1d7ec; 0x1d7f6; 0x1e140;
    0x1e2f0; 0x1e950; 0x1fbf0
  ]%N.

(** [Py_UNICODE_TODECIMAL] *)
Definition to_decimal (c : char) : option N :=
  match find (fun z => (z <=? c)%N && (c <? z + 10)%N) decimal_zeros with
  | Some z => Some (c - z)%N
  | None => None
  end.

(** Complement of [Py_UNICODE_ISPRINTABLE] (categories C* and Z* except the
    ASCII space, Unicode 14.0.0), as inclusive ranges. *)
Definition nonprintable_ranges : list (N * N) :=
  [
    (0x0, 0x1f); (0x7f, 0xa0); (0xad, 0xad); (0x378, 0x379); (0x380, 0x383);
    (0x38b, 0x38b); (0x38d, 0x38d); (0x3a2, 0x3a2); (0x530, 0x530);
    (0x557, 0x558); (0x58b, 0x58c); (0x590, 0x590); (0x5c8, 0x5cf);
    (0x5eb, 0x5ee); (0x5f5, 0x605); (0x61c, 0x61c); (0x6dd, 0x6dd);
    (0x70e, 0x70f); (0x74b, 0x74c); (0x7b2, 0x7bf); (0x7fb, 0x7fc);
    (0x82e, 0x82f); (0x83f, 0x83f); (0x85c, 0x85d); (0x85f, 0x85f);
    (0x86b, 0x86f); (0x88f, 0x897); (0x8e2, 0x8e2); (0x984, 0x984);
    (0x98d, 0x98e); (0x991, 0x992); (0x9a9, 0x9a9); (0x9b1, 0x9b1);
    (0x9b3, 0x9b5); (0x9ba, 0x9bb); (0x9c5, 0x9c6); (0x9c9, 0x9ca);
    (0x9cf, 0x9d6); (0x9d8, 0x9db); (0x9de, 0x9de); (0x9e4, 0x9e5);
    (0x9ff, 0xa00); (0xa04, 0xa04); (0xa0b, 0xa0e); (0xa11, 0xa12);
    (0xa29, 0xa29); (0xa31, 0xa31); (0xa34, 0xa34); (0xa37, 0xa37);
    (0xa3a, 0xa3b); (0xa3d, 0xa3d); (0xa43, 0xa46); (0xa49, 0xa4a);
    (0xa4e, 0xa50); (0xa52, 0xa58); (0xa5d, 0xa5d); (0xa5f, 0xa65);
    (0xa77, 0xa80); (0xa84, 0xa84); (0xa8e, 0xa8e); (0xa92, 0xa92);
    (0xaa9, 0xaa9); (0xab1, 0xab1); (0xab4, 0xab4); (0xaba, 0xabb);
    (0xac6, 0xac6); (0xaca, 0xaca); (0xace, 0xacf); (0xad1, 0xadf);
    (0xae4, 0xae5); (0xaf2, 0xaf8); (0xb00, 0xb00); (0xb04, 0xb04);
    (0xb0d, 0xb0e); (0xb11, 0xb12); (0xb29, 0xb29); (0xb31, 0xb31);
    (0xb34, 0xb34); (0xb3a, 0xb3b); (0xb45, 0xb46); (0xb49, 0xb4a);
    (0xb4e, 0xb54); (0xb58, 0xb5b); (0xb5e, 0xb5e); (0xb64, 0xb65);
    (0xb78, 0xb81); (0xb84, 0xb84); (0xb8b, 0xb8d); (0xb91, 0xb91);
    (0xb96, 0xb98); (0xb9b, 0xb9b); (0xb9d, 0xb9d); (0xba0, 0xba2);
    (0xba5, 0xba7); (0xbab, 0xbad); (0xbba, 0xbbd); (0xbc3, 0xbc5);
    (0xbc9, 0xbc9); (0xbce, 0xbcf); (0xbd1, 0xbd6); (0xbd8, 0xbe5);
    (0xbfb, 0xbff); (0xc0d, 0xc0d); (0xc11, 0xc11); (0xc29, 0xc29);
    (0xc3a, 0xc3b); (0xc45, 0xc45); (0xc49, 0xc49); (0xc4e, 0xc54);
    (0xc57, 0xc57); (0xc5b, 0xc5c); (0xc5e, 0xc5f); (0xc64, 0xc65);
    (0xc70, 0xc76); (0xc8d, 0xc8d); (0xc91, 0xc91); (0xca9, 0xca9);
    (0xcb4, 0xcb4); (0xcba, 0xcbb); (0xcc5, 0xcc5); (0xcc9, 0xcc9);
    (0xcce, 0xcd4); (0xcd7, 0xcdc); (0xcdf, 0xcdf); (0xce4, 0xce5);
    (0xcf0, 0xcf0); (0xcf3, 0xcff); (0xd0d, 0xd0d); (0xd11, 0xd11);
    (0xd45, 0xd45); (0xd49, 0xd49); (0xd50, 0xd53); (0xd64, 0xd65);
    (0xd80, 0xd80); (0xd84, 0xd84); (0xd97, 0xd99); (0xdb2, 0xdb2);
    (0xdbc, 0xdbc); (0xdbe, 0xdbf); (0xdc7, 0xdc9); (0xdcb, 0xdce);
    (0xdd5, 0xdd5); (0xdd7, 0xdd7); (0xde0, 0xde5); (0xdf0, 0xdf1);
    (0xdf5, 0xe00); (0xe3b, 0xe3e); (0xe5c, 0xe80); (0xe83, 0xe83);
    (0xe85, 0xe85); (0xe8b, 0xe8b); (0xea4, 0xea4); (0xea6, 0xea6);
    (0xebe, 0xebf); (0xec5, 0xec5); (0xec7, 0xec7); (0xece, 0xecf);
    (0xeda, 0xedb); (0xee0, 0xeff); (0xf48, 0xf48); (0xf6d, 0xf70);
    (0xf98, 0xf98); (0xfbd, 0xfbd); (0xfcd, 0xfcd); (0xfdb, 0xfff);
    (0x10c6, 0x10c6); (0x10c8, 0x10cc); (0x10ce, 0x10cf); (0x1249, 0x1249);
    (0x124e, 0x124f); (0x1257, 0x1257); (0x1259, 0x1259); (0x125e, 0x125f);
    (0x1289, 0x1289); (0x128e, 0x128f); (0x12b1, 0x12b1); (0x12b6, 0x12b7);
    (0x12bf, 0x12bf); (0x12c1, 0x12c1); (0x12c6, 0x12c7); (0x12d7, 0x12d7);
    (0x1311, 0x1311); (0x1316, 0x1317); (0x135b, 0x135c); (0x137d, 0x137f);
    (0x139a, 0x139f); (0x13f6, 0x13f7); (0x13fe, 0x13ff); (0x1680, 0x1680);
    (0x169d, 0x169f); (0x16f9, 0x16ff); (0x1716, 0x171e); (0x1737, 0x173f);
    (0x1754, 0x175f); (0x176d, 0x176d); (0x1771, 0x1771); (0x1774, 0x177f);
    (0x17de, 0x17df); (0x17ea, 0x17ef); (0x17fa, 0x17ff); (0x180e, 0x180e);
    (0x181a, 0x181f); (0x1879, 0x187f); (0x18ab, 0x18af); (0x18f6, 0x18ff);
    (0x191f, 0x191f); (0x192c, 0x192f); (0x193c, 0x193f); (0x1941, 0x1943);
    (0x196e, 0x196f); (0x1975, 0x197f); (0x19ac, 0x19af); (0x19ca, 0x19cf);
    (0x19db, 0x19dd); (0x1a1c, 0x1a1d); (0x1a5f, 0x1a5f); (0x1a7d, 0x1a7e);
    (0x1a8a, 0x1a8f); (0x1a9a, 0x1a9f); (0x1aae, 0x1aaf); (0x1acf, 0x1aff);
    (0x1b4d, 0x1b4f); (0x1b7f, 0x1b7f); (0x1bf4, 0x1bfb); (0x1c38, 0x1c3a);
    (0x1c4a, 0x1c4c); (0x1c89, 0x1c8f); (0x1cbb, 0x1cbc); (0x1cc8, 0x1ccf);
    (0x1cfb, 0x1cff); (0x1f16, 0x1f17); (0x1f1e, 0x1f1f); (0x1f46, 0x1f47);
    (0x1f4e, 0x1f4f); (0x1f58, 0x1f58); (0x1f5a, 0x1f5a); (0x1f5c, 0x1f5c);
    (0x1f5e, 0x1f5e); (0x1f7e, 0x1f7f); (0x1fb5, 0x1fb5); (0x1fc5, 0x1fc5);
    (0x1fd4, 0x1fd5); (0x1fdc, 0x1fdc); (0x1ff0, 0x1ff1); (0x1ff5, 0x1ff5);
    (0x1fff, 0x200f); (0x2028, 0x202f); (0x205f, 0x206f); (0x2072, 0x2073);
    (0x208f, 0x208f); (0x209d, 0x209f); (0x20c1, 0x20cf); (0x20f1, 0x20ff);
    (0x218c, 0x218f); (0x2427, 0x243f); (0x244b, 0x245f); (0x2b74, 0x2b75);
    (0x2b96, 0x2b96); (0x2cf4, 0x2cf8); (0x2d26, 0x2d26); (0x2d28, 0x2d2c);
    (0x2d2e, 0x2d2f); (0x2d68, 0x2d6e); (0x2d71, 0x2d7e); (0x2d97, 0x2d9f);
    (0x2da7, 0x2da7); (0x2daf, 0x2daf); (0x2db7, 0x2db7); (0x2dbf, 0x2dbf);
    (0x2dc7, 0x2dc7); (0x2dcf, 0x2dcf); (0x2dd7, 0x2dd7); (0x2ddf, 0x2ddf);
    (0x2e5e, 0x2e7f); (0x2e9a, 0x2e9a); (0x2ef4, 0x2eff); (0x2fd6, 0x2fef);
    (0x2ffc, 0x3000); (0x3040, 0x3040); (0x3097, 0x3098); (0x3100, 0x3104);
    (0x3130, 0x3130); (0x318f, 0x318f); (0x31e4, 0x31ef); (0x321f, 0x321f);
    (0xa48d, 0xa48f); (0xa4c7, 0xa4cf); (0xa62c, 0xa63f); (0xa6f8, 0xa6ff);
    (0xa7cb, 0xa7cf); (0xa7d2, 0xa7d2); (0xa7d4, 0xa7d4); (0xa7da, 0xa7f1);
    (0xa82d, 0xa82f); (0xa83a, 0xa83f); (0xa878, 0xa87f); (0xa8c6, 0xa8cd);
    (0xa8da, 0xa8df); (0xa954, 0xa95e); (0xa97d, 0xa97f); (0xa9ce, 0xa9ce);
    (0xa9da, 0xa9dd); (0xa9ff, 0xa9ff); (0xaa37, 0xaa3f); (0xaa4e, 0xaa4f);
    (0xaa5a, 0xaa5b); (0xaac3, 0xaada); (0xaaf7, 0xab00); (0xab07, 0xab08);
    (0xab0f, 0xab10); (0xab17, 0xab1f); (0xab27, 0xab27); (0xab2f, 0xab2f);
    (0xab6c, 0xab6f); (0xabee, 0xabef); (0xabfa, 0xabff); (0xd7a4, 0xd7af);
    (0xd7c7, 0xd7ca); (0xd7fc, 0xf8ff); (0xfa6e, 0xfa6f); (0xfada, 0xfaff);
    (0xfb07, 0xfb12); (0xfb18, 0xfb1c); (0xfb37, 0xfb37); (0xfb3d, 0xfb3d);
    (0xfb3f, 0xfb3f); (0xfb42, 0xfb42); (0xfb45, 0xfb45); (0xfbc3, 0xfbd2);
    (0xfd90, 0xfd91); (0xfdc8, 0xfdce); (0xfdd0, 0xfdef); (0xfe1a, 0xfe1f);
    (0xfe53, 0xfe53); (0xfe67, 0xfe67); (0xfe6c, 0xfe6f); (0xfe75, 0xfe75);
    (0xfefd, 0xff00); (0xffbf, 0xffc1); (0xffc8, 0xffc9); (0xffd0, 0xffd1);
    (0xffd8, 0xffd9); (0xffdd, 0xffdf); (0xffe7, 0xffe7); (0xffef, 0xfffb);
    (0xfffe, 0xffff); (0x1000c, 0x1000c); (0x10027, 0x10027);
    (0x1003b, 0x1003b); (0x1003e, 0x1003e); (0x1004e, 0x1004f);
    (0x1005e, 0x1007f); (0x100fb, 0x100ff); (0x10103, 0x10106);
    (0x10134, 0x10136); (0x1018f, 0x1018f); (0x1019d, 0x1019f);
    (0x101a1, 0x101cf); (0x101fe, 0x1027f); (0x1029d, 0x1029f);
    (0x102d1, 0x102df); (0x102fc, 0x102ff); (0x10324, 0x1032c);
    (0x1034b, 0x1034f); (0x1037b, 0x1037f); (0x1039e, 0x1039e);
    (0x103c4, 0x103c7); (0x103d6, 0x103ff); (0x1049e, 0x1049f);
    (0x104aa, 0x104af); (0x104d4, 0x104d7); (0x104fc, 0x104ff);
    (0x10528, 0x1052f); (0x10564, 0x1056e); (0x1057b, 0x1057b);
    (0x1058b, 0x1058b); (0x10593, 0x10593); (0x10596, 0x10596);
    (0x105a2, 0x105a2); (0x105b2, 0x105b2); (0x105ba, 0x105ba);
    (0x105bd, 0x105ff); (0x10737, 0x1073f); (0x10756, 0x1075f);
    (0x10768, 0x1077f); (0x10786, 0x10786); (0x107b1, 0x107b1);
    (0x107bb, 0x107ff); (0x10806, 0x10807); (0x10809, 0x10809);
    (0x10836, 0x10836); (0x10839, 0x1083b); (0x1083d, 0x1083e);
    (0x10856, 0x10856); (0x1089f, 0x108a6); (0x108b0, 0x108df);
    (0x108f3, 0x108f3); (0x108f6, 0x108fa); (0x1091c, 0x1091e);
    (0x1093a, 0x1093e); (0x10940, 0x1097f); (0x109b8, 0x109bb);
    (0x109d0, 0x109d1); (0x10a04, 0x10a04); (0x10a07, 0x10a0b);
    (0x10a14, 0x10a14); (0x10a18, 0x10a18); (0x10a36, 0x10a37);
    (0x10a3b, 0x10a3e); (0x10a49, 0x10a4f); (0x10a59, 0x10a5f);
    (0x10aa0, 0x10abf); (0x10ae7, 0x10aea); (0x10af7, 0x10aff);
    (0x10b36, 0x10b38); (0x10b56, 0x10b57); (0x10b73, 0x10b77);
    (0x10b92, 0x10b98); (0x10b9d, 0x10ba8); (0x10bb0, 0x10bff);
    (0x10c49, 0x10c7f); (0x10cb3, 0x10cbf); (0x10cf3, 0x10cf9);
    (0x10d28, 0x10d2f); (0x10d3a, 0x10e5f); (0x10e7f, 0x10e7f);
    (0x10eaa, 0x10eaa); (0x10eae, 0x10eaf); (0x10eb2, 0x10eff);
    (0x10f28, 0x10f2f); (0x10f5a, 0x10f6f); (0x10f8a, 0x10faf);
    (0x10fcc, 0x10fdf); (0x10ff7, 0x10fff); (0x1104e, 0x11051);
    (0x11076, 0x1107e); (0x110bd, 0x110bd); (0x110c3, 0x110cf);
    (0x110e9, 0x110ef); (0x110fa, 0x110ff); (0x11135, 0x11135);
    (0x11148, 0x1114f); (0x11177, 0x1117f); (0x111e0, 0x111e0);
    (0x111f5, 0x111ff); (0x11212, 0x11212); (0x1123f, 0x1127f);
    (0x11287, 0x11287); (0x11289, 0x11289); (0x1128e, 0x1128e);
    (0x1129e, 0x1129e); (0x112aa, 0x112af); (0x112eb, 0x112ef);
    (0x112fa, 0x112ff); (0x11304, 0x11304); (0x1130d, 0x1130e);
    (0x11311, 0x11312); (0x11329, 0x11329); (0x11331, 0x11331);
    (0x11334, 0x11334); (0x1133a, 0x1133a); (0x11345, 0x11346);
    (0x11349, 0x1134a); (0x1134e, 0x1134f); (0x11351, 0x11356);
    (0x11358, 0x1135c); (0x11364, 0x11365); (0x1136d, 0x1136f);
    (0x11375, 0x113ff); (0x1145c, 0x1145c); (0x11462, 0x1147f);
    (0x114c8, 0x114cf); (0x114da, 0x1157f); (0x115b6, 0x115b7);
    (0x115de, 0x115ff); (0x11645, 0x1164f); (0x1165a, 0x1165f);
    (0x1166d, 0x1167f); (0x116ba, 0x116bf); (0x116ca, 0x116ff);
    (0x1171b, 0x1171c); (0x1172c, 0x1172f); (0x11747, 0x117ff);
    (0x1183c, 0x1189f); (0x118f3, 0x118fe); (0x11907, 0x11908);
    (0x1190a, 0x1190b); (0x11914, 0x11914); (0x11917, 0x11917);
    (0x11936, 0x11936); (0x11939, 0x1193a); (0x11947, 0x1194f);
    (0x1195a, 0x1199f); (0x119a8, 0x119a9); (0x119d8, 0x119d9);
    (0x119e5, 0x119ff); (0x11a48, 0x11a4f); (0x11aa3, 0x11aaf);
    (0x11af9, 0x11bff); (0x11c09, 0x11c09); (0x11c37, 0x11c37);
    (0x11c46, 0x11c4f); (0x11c6d, 0x11c6f); (0x11c90, 0x11c91);
    (0x11ca8, 0x11ca8); (0x11cb7, 0x11cff); (0x11d07, 0x11d07);
    (0x11d0a, 0x11d0a); (0x11d37, 0x11d39); (0x11d3b, 0x11d3b);
    (0x11d3e, 0x11d3e); (0x11d48, 0x11d4f); (0x11d5a, 0x11d5f);
    (0x11d66, 0x11d66); (0x11d69, 0x11d69); (0x11d8f, 0x11d8f);
    (0x11d92, 0x11d92); (0x11d99, 0x11d9f); (0x11daa, 0x11edf);
    (0x11ef9, 0x11faf); (0x11fb1, 0x11fbf); (0x11ff2, 0x11ffe);
    (0x1239a, 0x123ff); (0x1246f, 0x1246f); (0x12475, 0x1247f);
    (0x12544, 0x12f8f); (0x12ff3, 0x12fff); (0x1342f, 0x143ff);
    (0x14647, 0x167ff); (0x16a39, 0x16a3f); (0x16a5f, 0x16a5f);
    (0x16a6a, 0x16a6d); (0x16abf, 0x16abf); (0x16aca, 0x16acf);
    (0x16aee, 0x16aef); (0x16af6, 0x16aff); (0x16b46, 0x16b4f);
    (0x16b5a, 0x16b5a); (0x16b62, 0x16b62); (0x16b78, 0x16b7c);
    (0x16b90, 0x16e3f); (0x16e9b, 0x16eff); (0x16f4b, 0x16f4e);
    (0x16f88, 0x16f8e); (0x16fa0, 0x16fdf); (0x16fe5, 0x16fef);
    (0x16ff2, 0x16fff); (0x187f8, 0x187ff); (0x18cd6, 0x18cff);
    (0x18d09, 0x1afef); (0x1aff4, 0x1aff4); (0x1affc, 0x1affc);
    (0x1afff, 0x1afff); (0x1b123, 0x1b14f); (0x1b153, 0x1b163);
    (0x1b168, 0x1b16f); (0x1b2fc, 0x1bbff); (0x1bc6b, 0x1bc6f);
    (0x1bc7d, 0x1bc7f); (0x1bc89, 0x1bc8f); (0x1bc9a, 0x1bc9b);
    (0x1bca0, 0x1ceff); (0x1cf2e, 0x1cf2f); (0x1cf47, 0x1cf4f);
    (0x1cfc4, 0x1cfff); (0x1d0f6, 0x1d0ff); (0x1d127, 0x1d128);
    (0x1d173, 0x1d17a); (0x1d1eb, 0x1d1ff); (0x1d246, 0x1d2df);
    (0x1d2f4, 0x1d2ff); (0x1d357, 0x1d35f); (0x1d379, 0x1d3ff);
    (0x1d455, 0x1d455); (0x1d49d, 0x1d49d); (0x1d4a0, 0x1d4a1);
    (0x1d4a3, 0x1d4a4); (0x1d4a7, 0x1d4a8); (0x1d4ad, 0x1d4ad);
    (0x1d4ba, 0x1d4ba); (0x1d4bc, 0x1d4bc); (0x1d4c4, 0x1d4c4);
    (0x1d506, 0x1d506); (0x1d50b, 0x1d50c); (0x1d515, 0x1d515);
    (0x1d51d, 0x1d51d); (0x1d53a, 0x1d53a); (0x1d53f, 0x1d53f);
    (0x1d545, 0x1d545); (0x1d547, 0x1d549); (0x1d551, 0x1d551);
    (0x1d6a6, 0x1d6a7); (0x1d7cc, 0x1d7cd); (0x1da8c, 0x1da9a);
    (0x1daa0, 0x1daa0); (0x1dab0, 0x1deff); (0x1df1f, 0x1dfff);
    (0x1e007, 0x1e007); (0x1e019, 0x1e01a); (0x1e022, 0x1e022);
    (0x1e025, 0x1e025); (0x1e02b, 0x1e0ff); (0x1e12d, 0x1e12f);
    (0x1e13e, 0x1e13f); (0x1e14a, 0x1e14d); (0x1e150, 0x1e28f);
    (0x1e2af, 0x1e2bf); (0x1e2fa, 0x1e2fe); (0x1e300, 0x1e7df);
    (0x1e7e7, 0x1e7e7); (0x1e7ec, 0x1e7ec); (0x1e7ef, 0x1e7ef);
    (0x1e7ff, 0x1e7ff); (0x1e8c5, 0x1e8c6); (0x1e8d7, 0x1e8ff);
    (0x1e94c, 0x1e94f); (0x1e95a, 0x1e95d); (0x1e960, 0x1ec70);
    (0x1ecb5, 0x1ed00); (0x1ed3e, 0x1edff); (0x1ee04, 0x1ee04);
    (0x1ee20, 0x1ee20); (0x1ee23, 0x1ee23); (0x1ee25, 0x1ee26);
    (0x1ee28, 0x1ee28); (0x1ee33, 0x1ee33); (0x1ee38, 0x1ee38);
    (0x1ee3a, 0x1ee3a); (0x1ee3c, 0x1ee41); (0x1ee43, 0x1ee46);
    (0x1ee48, 0x1ee48); (0x1ee4a, 0x1ee4a); (0x1ee4c, 0x1ee4c);
    (0x1ee50, 0x1ee50); (0x1ee53, 0x1ee53); (0x1ee55, 0x1ee56);
    (0x1ee58, 0x1ee58); (0x1ee5a, 0x1ee5a); (0x1ee5c, 0x1ee5c);
    (0x1ee5e, 0x1ee5e); (0x1ee60, 0x1ee60); (0x1ee63, 0x1ee63);
    (0x1ee65, 0x1ee66); (0x1ee6b, 0x1ee6b); (0x1ee73, 0x1ee73);
    (0x1ee78, 0x1ee78); (0x1ee7d, 0x1ee7d); (0x1ee7f, 0x1ee7f);
    (0x1ee8a, 0x1ee8a); (0x1ee9c, 0x1eea0); (0x1eea4, 0x1eea4);
    (0x1eeaa, 0x1eeaa); (0x1eebc, 0x1eeef); (0x1eef2, 0x1efff);
    (0x1f02c, 0x1f02f); (0x1f094, 0x1f09f); (0x1f0af, 0x1f0b0);
    (0x1f0c0, 0x1f0c0); (0x1f0d0, 0x1f0d0); (0x1f0f6, 0x1f0ff);
    (0x1f1ae, 0x1f1e5); (0x1f203, 0x1f20f); (0x1f23c, 0x1f23f);
    (0x1f249, 0x1f24f); (0x1f252, 0x1f25f); (0x1f266, 0x1f2ff);
    (0x1f6d8, 0x1f6dc); (0x1f6ed, 0x1f6ef); (0x1f6fd, 0x1f6ff);
    (0x1f774, 0x1f77f); (0x1f7d9, 0x1f7df); (0x1f7ec, 0x1f7ef);
    (0x1f7f1, 0x1f7ff); (0x1f80c, 0x1f80f); (0x1f848, 0x1f84f);
    (0x1f85a, 0x1f85f); (0x1f888, 0x1f88f); (0x1f8ae, 0x1f8af);
    (0x1f8b2, 0x1f8ff); (0x1fa54, 0x1fa5f); (0x1fa6e, 0x1fa6f);
    (0x1fa75, 0x1fa77); (0x1fa7d, 0x1fa7f); (0x1fa87, 0x1fa8f);
    (0x1faad, 0x1faaf); (0x1fabb, 0x1fabf); (0x1fac6, 0x1facf);
    (0x1fada, 0x1fadf); (0x1fae8, 0x1faef); (0x1faf7, 0x1faff);
    (0x1fb93, 0x1fb93); (0x1fbcb, 0x1fbef); (0x1fbfa, 0x1ffff);
    (0x2a6e0, 0x2a6ff); (0x2b739, 0x2b73f); (0x2b81e, 0x2b81f);
    (0x2cea2, 0x2ceaf); (0x2ebe1, 0x2f7ff); (0x2fa1e, 0x2ffff);
    (0x3134b, 0xe00ff); (0xe01f0, 0x10ffff)
  ]%N.

Definition isprintable (c : char) : bool :=
  negb (in_ranges nonprintable_ranges c).

End Unicode.

Import Unicode.

(** ** Strings *)

Definition str := list char.

(** [str.lstrip()], [str.rstrip()] and [str.strip()] without argument. *)
Fixpoint lstrip (s : str) : str :=
  match s with
  | [] => []
  | c :: s' => if isspace c then lstrip s' else s
  end.

Fixpoint rstrip (s : str) : str :=
  match s with
  | [] => []
  | c :: s' =>
      match rstrip s' with
      | [] => if isspace c then [] else [c]
      | t => c :: t
      end
  end.

Definition strip (s : str) : str := rstrip (lstrip s).

(** [str.split()] without argument: maximal runs of non-blank characters.
    [cur] holds the characters of the run being read, last one first. *)
Fixpoint split_from (cur : str) (s : str) : list str :=
  match s with
  | [] => match cur with [] => [] | _ => [rev cur] end
  | c :: s' =>
      if isspace c
      then match cur with
           | [] => split_from [] s'
           | _ => rev cur :: split_from [] s'
           end
      else split_from (c :: cur) s'
  end.

Definition split (s : str) : list str := split_from [] s.

(** ** The UTF-8 decoder of the text layer (error handler [strict]) *)

Module Utf8.

Definition cont (b : N) : bool := ((0x80 <=? b) && (b <=? 0xbf))%N.
Definition between (lo hi b : N) : bool := ((lo <=? b) && (b <=? hi))%N.

(** Decodes one code point at a time; [None] is [UnicodeDecodeError].
    Overlong forms, surrogates and values above U+10FFFF are rejected. *)
Fixpoint decode_N (fuel : nat) (bs : list N) : option str :=
  match fuel with
  | O => match bs with [] => Some [] | _ => None end
  | S fuel' =>
      match bs with
      | [] => Some []
      | b0 :: r0 =>
          if (b0 <=? 0x7f)%N then option_map (cons b0) (decode_N fuel' r0)
          else if between 0xc2 0xdf b0 then
            match r0 with
            | b1 :: r1 =>
                if cont b1
                then option_map (cons ((b0 - 0xc0) * 64 + (b1 - 0x80))%N)
                                (decode_N fuel' r1)
                else None
            | _ => None
            end
          else if between 0xe0 0xef b0 then
            match r0 with
            | b1 :: b2 :: r2 =>
                let lo := if (b0 =? 0xe0)%N then 0xa0%N else 0x80%N in
                let hi := if (b0 =? 0xed)%N then 0x9f%N else 0xbf%N in
                if between lo hi b1 && cont b2
                then option_map
                       (cons ((b0 - 0xe0) * 4096 + (b1 - 0x80) * 64
                              + (b2 - 0x80))%N)
                       (decode_N fuel' r2)
                else None
            | _ => None
            end
          else if between 0xf0 0xf4 b0 then
            match r0 with
            | b1 :: b2 :: b3 :: r3 =>
                let lo := if (b0 =? 0xf0)%N then 0x90%N else 0x80%N in
                let hi := if (b0 =? 0xf4)%N then 0x8f%N else 0xbf%N in
                if between lo hi b1 && cont b2 && cont b3
                then option_map
                       (cons ((b0 - 0xf0) * 262144 + (b1 - 0x80) * 4096
                              + (b2 - 0x80) * 64 + (b3 - 0x80))%N)
                       (decode_N fuel' r3)
                else None
            | _ => None
            end
          else None
      end
  end.

Definition decode (bs : list byte) : option str :=
  decode_N (List.length bs) (map Byte.to_N bs).

End Utf8.

(** A string literal of the script: the code points of its UTF-8 text. *)
Definition u (s : string) : str :=
  match Utf8.decode (list_byte_of_string s) with
  | Some t => t
  | None => []
  end.

(** ** Integers: [str(int)], [len], hexadecimal escapes *)

Definition digit_char (d : N) : char := (0x30 + d)%N.

(** Decimal digits of a natural number, most significant first; [fuel]
    bounds the number of digits. *)
Fixpoint digits_of_N (fuel : nat) (n : N) (acc : str) : str :=
  match fuel with
  | O => acc
  | S fuel' =>
      let acc' := digit_char (n mod 10) :: acc in
      if (n <? 10)%N then acc' else digits_of_N fuel' (n / 10)%N acc'
  end.

Definition str_of_N (n : N) : str :=
  digits_of_N (S (N.to_nat (N.log2 n))) n [].

(** [str(z)] for an [int]. *)
Definition str_of_Z (z : Z) : str :=
  match z with
  | Zneg p => u "-" ++ str_of_N (Npos p)
  | _ => str_of_N (Z.to_N z)
  end.

Definition str_of_nat (n : nat) : str := str_of_N (N.of_nat n).

(** ** Number parsing: what [int(s)] and [float(s)] share *)

(** [_PyUnicode_TransformDecimalAndSpaceToASCII]: an ASCII string is taken as
    it is; otherwise blanks become a space, decimal digits of any script
    their ASCII digit, and the first other non-ASCII character a question
    mark that ends the buffer. *)
Fixpoint transform_chars (s : str) : str :=
  match s with
  | [] => []
  | c :: s' =>
      if (c <? 127)%N then c :: transform_chars s'
      else if isspace c then 0x20%N :: transform_chars s'
      else match to_decimal c with
           | Some d => digit_char d :: transform_chars s'
           | None => [0x3f%N]
           end
  end.

Definition transform_decimal_and_space_to_ascii (s : str) : str :=
  if forallb (fun c => (c <? 128)%N) s then s else transform_chars s.

Fixpoint skip_ascii_space (s : str) : str :=
  match s with
  | [] => []
  | c :: s' => if ascii_isspace c then skip_ascii_space s' else s
  end.

Definition is_digit (c : char) : bool := ((0x30 <=? c) && (c <=? 0x39))%N.
Definition digit_value (c : char) : Z := Z.of_N (c - 0x30)%N.
Definition underscore : char := 0x5f%N.
Definition plus_sign : char := 0x2b%N.
Definition minus_sign : char := 0x2d%N.

(** A leading sign: [(negative, rest)]. *)
Definition take_sign (s : str) : bool * str :=
  match s with
  | c :: s' =>
      if (c =? minus_sign)%N then (true, s')
      else if (c =? plus_sign)%N then (false, s')
      else (false, s)
  | [] => (false, [])
  end.

(** ** [int(s)] for a [str] argument, base 10 *)

(** [sys.get_int_max_str_digits()], CPython's default. *)
Definition int_max_str_digits : nat := 4300.

(** The digit scan of [PyLong_FromString]: digits with single underscores
    between them.  Returns the value read, the number of digits and the
    unread rest; [None] when an underscore is doubled or trailing. *)
Fixpoint scan_int (s : str) (prev_underscore : bool) (acc : Z) (ndigits : nat)
  : option (Z * nat * str) :=
  match s with
  | c :: s' =>
      if is_digit c
      then scan_int s' false (10 * acc + digit_value c)%Z (S ndigits)
      else if (c =? underscore)%N then
        if prev_underscore then None else scan_int s' true acc ndigits
      else if prev_underscore then None else Some (acc, ndigits, s)
  | [] => if prev_underscore then None else Some (acc, ndigits, [])
  end.

(** [None] stands for [ValueError]. *)
Definition py_int (s : str) : option Z :=
  let buf := transform_decimal_and_space_to_ascii s in
  let '(neg, body) := take_sign (skip_ascii_space buf) in
  match body with
  | c :: _ =>
      if (c =? underscore)%N then None
      else
        match scan_int body false 0%Z 0 with
        | Some (v, ndigits, rest) =>
            match ndigits, skip_ascii_space rest with
            | S _, [] =>
                if Nat.ltb int_max_str_digits ndigits then None
                else Some (if neg then (- v)%Z else v)
            | _, _ => None
            end
        | None => None
        end
  | [] => None
  end.

(** ** [float] *)

Definition float := spec_float.

Definition prec : Z := 53.
Definition emax : Z := 1024.

Definition float_add : float -> float -> float := SFadd prec emax.
Definition float_sub : float -> float -> float := SFsub prec emax.
Definition float_div : float -> float -> float := SFdiv prec emax.
Definition float_lt : float -> float -> bool := SFltb.
Definition float_le : float -> float -> bool := SFleb.
Definition float_gt (x y : float) : bool := SFltb y x.

(** [float(n)] for an [int] operand of mixed arithmetic or comparison. *)
Definition float_of_Z (n : Z) : float := binary_normalize prec emax n 0 false.

(** [math.isnan], [math.isinf] *)
Definition isnan (x : float) : bool :=
  match x with S754_nan => true | _ => false end.
Definition isinf (x : float) : bool :=
  match x with S754_infinity _ => true | _ => false end.

(** *** [float(s)] for a [str] argument *)

(** [_Py_string_to_number_with_underscores]: an underscore must stand between
    two digits; the underscores are then dropped.  [prev] is the previous
    character of the buffer, 0 at the start. *)
Fixpoint drop_underscores (prev : char) (s : str) : option str :=
  match s with
  | [] => if (prev =? underscore)%N then None else Some []
  | c :: s' =>
      if (c =? underscore)%N then
        if is_digit prev then drop_underscores c s' else None
      else if (prev =? underscore)%N && negb (is_digit c) then None
      else option_map (cons c) (drop_underscores c s')
  end.

Definition to_lower (c : char) : char :=
  if ((0x41 <=? c) && (c <=? 0x5a))%N then (c + 32)%N else c.

Fixpoint str_eqb (a b : str) : bool :=
  match a, b with
  | [], [] => true
  | x :: a', y :: b' => (x =? y)%N && str_eqb a' b'
  | _, _ => false
  end.

(** Reads a run of digits: [(value, number of digits, rest)]. *)
Fixpoint scan_digits (s : str) (acc : Z) (n : Z) : Z * Z * str :=
  match s with
  | c :: s' =>
      if is_digit c then scan_digits s' (10 * acc + digit_value c)%Z (n + 1)%Z
      else (acc, n, s)
  | [] => (acc, n, [])
  end.

(** Number of decimal digits of a positive integer. *)
Definition decimal_length (m : Z) : Z :=
  Z.of_nat (List.length (str_of_N (Z.to_N m))).

(** The correctly rounded binary64 value of [m * 10 ^ e], [m >= 0]: one
    rounding to nearest, ties to even, of the exact quotient or product.
    Magnitudes of 1e309 and more overflow, those below 1e-324 vanish. *)
Definition round_decimal (neg : bool) (m e : Z) : float :=
  match m with
  | Zpos p =>
      let len := decimal_length m in
      if (309 <=? e + len - 1)%Z then S754_infinity neg
      else if (e + len <=? -324)%Z then S754_zero neg
      else if (0 <=? e)%Z then
        binary_normalize prec emax
          (if neg then - (m * 10 ^ e) else m * 10 ^ e)%Z 0 neg
      else
        SFdiv prec emax (S754_finite neg p 0)
                        (S754_finite false (Z.to_pos (10 ^ (- e))) 0)
  | _ => S754_zero neg
  end.

(** The exponent part: [e], an optional sign and at least one digit;
    otherwise the exponent marker is left unread. *)
Definition scan_exponent (s : str) : Z * str :=
  match s with
  | c :: s' =>
      if (to_lower c =? 0x65)%N then
        let '(neg, t) := take_sign s' in
        let '(v, n, rest) := scan_digits t 0%Z 0%Z in
        if (n =? 0)%Z then (0%Z, s) else ((if neg then - v else v)%Z, rest)
      else (0%Z, s)
  | [] => (0%Z, [])
  end.

(** [_Py_dg_strtod] followed by [_Py_parse_inf_or_nan]: the value and the
    unread rest, [None] when no number starts the string. *)
Definition strtod (s : str) : option (float * str) :=
  let '(neg, t) := take_sign s in
  let '(ip, ni, t1) := scan_digits t 0%Z 0%Z in
  let '(fp, nf, t2) :=
    match t1 with
    | c :: t1' =>
        if (c =? 0x2e)%N then scan_digits t1' ip 0%Z else (ip, 0%Z, t1)
    | [] => (ip, 0%Z, t1)
    end in
  if (0 <? ni + nf)%Z then
    let '(ex, rest) := scan_exponent t2 in
    Some (round_decimal neg fp (ex - nf), rest)
  else
    let low := map to_lower t in
    if str_eqb (firstn 3 low) (u "inf") then
      if str_eqb (firstn 5 (skipn 3 low)) (u "inity")
      then Some (S754_infinity neg, skipn 8 t)
      else Some (S754_infinity neg, skipn 3 t)
    else if str_eqb (firstn 3 low) (u "nan") then Some (S754_nan, skipn 3 t)
    else None.

(** Drops trailing ASCII blanks. *)
Definition rskip_ascii_space (s : str) : str := rev (skip_ascii_space (rev s)).

(** [None] stands for [ValueError]. *)
Definition parse_float (s : str) : option float :=
  let buf := transform_decimal_and_space_to_ascii s in
  let body := rskip_ascii_space (skip_ascii_space buf) in
  match drop_underscores 0%N body with
  | Some t =>
      match strtod t with
      | Some (x, []) => Some x
      | _ => None
      end
  | None => None
  end.

(** *** [repr(x)] and [format(x, '.6f')] for a [float] *)

Definition zeros (n : Z) : str := repeat 0x30%N (Z.to_nat n).

Fixpoint drop_trailing_zeros (s : str) : str :=
  match s with
  | [] => []
  | c :: s' =>
      match drop_trailing_zeros s' with
      | [] => if (c =? 0x30)%N then [] else [c]
      | t => c :: t
      end
  end.

(** The value [m * 2 ^ e] and the half-way points to its two neighbours, as
    numerators over one denominator: [(lo, v, hi, den)].  The lower neighbour
    is half as far when [m] is the least normal mantissa. *)
Definition rounding_interval (m : positive) (e : Z) : Z * Z * Z * Z :=
  let narrow := ((Zpos m =? 2 ^ (prec - 1)) && (3 - emax - prec <? e))%Z in
  let below := (if narrow then 1 else 2)%Z in
  let v := (4 * Zpos m)%Z in
  if (2 <=? e)%Z
  then (((v - below) * 2 ^ (e - 2), v * 2 ^ (e - 2), (v + 2) * 2 ^ (e - 2)), 1)%Z
  else ((v - below, v, v + 2), 2 ^ (2 - e))%Z.

(** [num / den < 10 ^ d] *)
Definition below_pow10 (num den d : Z) : bool :=
  if (0 <=? d)%Z then (num <? den * 10 ^ d)%Z else (num * 10 ^ (- d) <? den)%Z.

(** The least [d] from [d0] on with [num / den < 10 ^ d]. *)
Fixpoint find_decpt (fuel : nat) (num den d0 : Z) : Z :=
  match fuel with
  | O => d0
  | S fuel' =>
      if below_pow10 num den d0 then d0 else find_decpt fuel' num den (d0 + 1)%Z
  end.

(** Tries [n], [n + 1], ... significant digits: the first count for which a
    multiple of [10 ^ (decpt - n)] lies in the rounding interval, and among
    the two multiples around the value the nearer one that does.  The ends of
    the interval belong to it when the mantissa is even.  Returns the
    multiple and the power of ten it is taken at. *)
Fixpoint shortest_from (fuel : nat) (even : bool) (lo v hi den decpt n : Z)
  : Z * Z :=
  let p := (decpt - n)%Z in
  let '(lo', v', hi', den') :=
    if (0 <=? p)%Z then (lo, v, hi, den * 10 ^ p)%Z
    else (lo * 10 ^ (- p), v * 10 ^ (- p), hi * 10 ^ (- p), den)%Z in
  let k := (v' / den')%Z in
  let r := (v' mod den')%Z in
  let down_ok := if even then (lo' <=? k * den')%Z else (lo' <? k * den')%Z in
  let up_ok :=
    if even then ((k + 1) * den' <=? hi')%Z else ((k + 1) * den' <? hi')%Z in
  let nearest :=
    match (2 * r ?= den')%Z with
    | Lt => k
    | Gt => (k + 1)%Z
    | Eq => if Z.even k then k else (k + 1)%Z
    end in
  match fuel with
  | O => (nearest, p)
  | S fuel' =>
      if (r =? 0)%Z then (k, p)
      else if down_ok && up_ok then (nearest, p)
      else if down_ok then (k, p)
      else if up_ok then ((k + 1)%Z, p)
      else shortest_from fuel' even lo v hi den decpt (n + 1)%Z
  end.

(** The shortest digit string that reads back as [m * 2 ^ e], without
    trailing zeros, and the position of the decimal point after its first
    [decpt] digits. *)
Definition shortest_digits (m : positive) (e : Z) : str * Z :=
  let '(lo, v, hi, den) := rounding_interval m e in
  let bits := (Zpos (digits2_pos m) + e)%Z in
  let decpt := find_decpt 8 v den ((bits - 1) * 30103 / 100000 - 1)%Z in
  let '(k, p) := shortest_from 16 (Z.even (Zpos m)) lo v hi den decpt 1%Z in
  let ds := str_of_N (Z.to_N k) in
  (drop_trailing_zeros ds, (p + Z.of_nat (List.length ds))%Z).

(** The layout of format code [r]: exponent notation when the decimal point
    falls more than 16 digits to the right or more than 3 zeros to the left,
    positional notation with at least one fractional digit otherwise. *)
Definition format_repr (digits : str) (decpt : Z) : str :=
  if ((decpt <=? -4) || (16 <? decpt))%Z then
    let ex := (decpt - 1)%Z in
    let mant :=
      match digits with
      | d :: (_ :: _) as rest => d :: u "." ++ rest
      | _ => digits
      end in
    let exdigits := str_of_N (Z.abs_N ex) in
    mant ++ u "e" ++ (if (ex <? 0)%Z then u "-" else u "+")
         ++ (if (Z.abs ex <? 10)%Z then u "0" else []) ++ exdigits
  else if (decpt <=? 0)%Z then u "0." ++ zeros (- decpt) ++ digits
  else if (Z.of_nat (List.length digits) <=? decpt)%Z
       then digits ++ zeros (decpt - Z.of_nat (List.length digits)) ++ u ".0"
       else firstn (Z.to_nat decpt) digits ++ u "." ++ skipn (Z.to_nat decpt) digits.

Definition sign_str (neg : bool) : str := if neg then u "-" else [].

(** [repr(x)], which is also [str(x)] and what an f-string field [{x}]
    without format specification inserts. *)
Definition float_repr (x : float) : str :=
  match x with
  | S754_nan => u "nan"
  | S754_infinity s => sign_str s ++ u "inf"
  | S754_zero s => sign_str s ++ u "0.0"
  | S754_finite s m e =>
      let '(digits, decpt) := shortest_digits m e in
      sign_str s ++ format_repr digits decpt
  end.

(** Left padding with zeros to [width] characters. *)
Definition zero_pad (width : nat) (s : str) : str :=
  repeat 0x30%N (width - List.length s) ++ s.

(** The nearest integer to [num / den], ties to even. *)
Definition round_half_even (num den : Z) : Z :=
  let q := (num / den)%Z in
  match (2 * (num mod den) ?= den)%Z with
  | Lt => q
  | Gt => (q + 1)%Z
  | Eq => if Z.even q then q else (q + 1)%Z
  end.

(** [format(x, '.6f')], the f-string field [{x:.6f}]: the exact value rounded
    to six decimals, ties to even. *)
Definition format_6f (x : float) : str :=
  match x with
  | S754_nan => u "nan"
  | S754_infinity s => sign_str s ++ u "inf"
  | S754_zero s => sign_str s ++ u "0.000000"
  | S754_finite s m e =>
      let scaled :=
        if (0 <=? e)%Z then (Zpos m * 2 ^ e * 1000000)%Z
        else round_half_even (Zpos m * 1000000) (2 ^ (- e)) in
      sign_str s ++ str_of_N (Z.to_N (scaled / 1000000))
               ++ u "." ++ zero_pad 6 (str_of_N (Z.to_N (scaled mod 1000000)))
  end.

(** ** [repr(s)] for a [str] *)

Definition hex_digit (d : N) : char :=
  if (d <? 10)%N then (0x30 + d)%N else (0x61 + (d - 10))%N.

(** The [width] low hexadecimal digits of [n], most significant first. *)
Fixpoint hex_digits (width : nat) (n : N) (acc : str) : str :=
  match width with
  | O => acc
  | S w => hex_digits w (n / 16)%N (hex_digit (n mod 16) :: acc)
  end.

Definition quote1 : char := 0x27%N.
Definition quote2 : char := 0x22%N.
Definition backslash : char := 0x5c%N.

Definition repr_char (quote : char) (c : char) : str :=
  if ((c =? quote) || (c =? backslash))%N then [backslash; c]
  else if (c =? 0x9)%N then u "\t"
  else if (c =? 0xa)%N then u "\n"
  else if (c =? 0xd)%N then u "\r"
  else if ((c <? 0x20) || (c =? 0x7f))%N then u "\x" ++ hex_digits 2 c []
  else if (c <? 0x7f)%N then [c]
  else if isprintable c then [c]
  else if (c <=? 0xff)%N then u "\x" ++ hex_digits 2 c []
  else if (c <=? 0xffff)%N then u "\u" ++ hex_digits 4 c []
  else u "\U" ++ hex_digits 8 c [].

(** Single quotes, unless the string holds a single quote and no double
    quote. *)
Definition py_repr (s : str) : str :=
  let has c := existsb (N.eqb c) s in
  let quote := if has quote1 && negb (has quote2) then quote2 else quote1 in
  quote :: flat_map (repr_char quote) s ++ [quote].

(** [float(s)]: the value, or [ValueError] with its message [str(e)]. *)
Inductive result (A : Type) : Type :=
| Ok (a : A)
| ValueError (msg : str).
Arguments Ok {A} a.
Arguments ValueError {A} msg.

Definition bind {A B : Type} (r : result A) (k : A -> result B) : result B :=
  match r with
  | Ok a => k a
  | ValueError msg => ValueError msg
  end.

Notation "x <- r ;; k" := (bind r (fun x => k))
  (at level 61, r at next level, right associativity).

Definition py_float (s : str) : result float :=
  match parse_float s with
  | Some x => Ok x
  | None => ValueError (u "could not convert string to float: " ++ py_repr s)
  end.

(** ** The script *)

(** *** [class LabelValidationError] *)

Record LabelValidationError : Type := mkLabelValidationError {
  filename : str;
  line_num : Z;
  line_content : str;
  reason : str
}.

(** [__init__]: the offending text is stored stripped. *)
Definition LabelValidationError_init
    (filename : str) (line_num : Z) (line_content : str) (reason : str)
  : LabelValidationError :=
  {| filename := filename;
     line_num := line_num;
     line_content := strip line_content;
     reason := reason |}.

(** [__str__] *)
Definition LabelValidationError_str (self : LabelValidationError) : str :=
  filename self ++ u ":" ++ str_of_Z (line_num self) ++ u " | '"
    ++ line_content self ++ u "' | ERROR: " ++ reason self.

(** *** [validate_yolo_line] *)

Definition coord_names : list str :=
  [u "center_x"; u "center_y"; u "width"; u "height"].

(** The loop [for i, coord in enumerate(coords)]: the finding for the first
    coordinate that is NaN or infinite, NaN being asked first; [None] when
    the loop runs to its end. *)
Fixpoint check_nan_inf (filename : str) (line_num : Z) (line : str)
    (i : nat) (coords : list float) : option LabelValidationError :=
  match coords with
  | [] => None
  | coord :: rest =>
      if isnan coord then
        let coord_name := nth i coord_names [] in
        Some (LabelValidationError_init filename line_num line
                (coord_name ++ u " is NaN"))
      else if isinf coord then
        let coord_name := nth i coord_names [] in
        Some (LabelValidationError_init filename line_num line
                (coord_name ++ u " is Infinity"))
      else check_nan_inf filename line_num line (S i) rest
  end.

(** [None] is Python's [None].  The pattern on [parts] is the test
    [len(parts) != 5] together with the unpacking of the five values.  Every
    operation of the body is total here ([int] and [float] return their
    [ValueError] as a value and nothing else raises), so the last handler of
    the source, [except Exception], has no counterpart. *)
Definition validate_yolo_line (line : str) (line_num : Z) (filename : str)
  : option LabelValidationError :=
  let line := strip line in
  match line with
  | [] => None
  | _ :: _ =>
  let parts := split line in
  match parts with
  | [class_id_str; center_x_str; center_y_str; width_str; height_str] =>
  match py_int class_id_str with
  | None =>
      Some (LabelValidationError_init filename line_num line
              (u "class_id must be integer, found: '" ++ class_id_str ++ u "'"))
  | Some class_id =>
  if (class_id <? 0)%Z then
    Some (LabelValidationError_init filename line_num line
            (u "class_id must be non-negative integer, found: "
               ++ str_of_Z class_id))
  else
  match (center_x <- py_float center_x_str ;;
         center_y <- py_float center_y_str ;;
         width <- py_float width_str ;;
         height <- py_float height_str ;;
         Ok (center_x, center_y, width, height)) with
  | ValueError e =>
      Some (LabelValidationError_init filename line_num line
              (u "Invalid numeric value: " ++ e))
  | Ok (center_x, center_y, width, height) =>
  let coords := [center_x; center_y; width; height] in
  match check_nan_inf filename line_num line 0 coords with
  | Some error => Some error
  | None =>
  if float_le width (float_of_Z 0) then
    Some (LabelValidationError_init filename line_num line
            (u "width must be > 0, found: " ++ float_repr width))
  else if float_le height (float_of_Z 0) then
    Some (LabelValidationError_init filename line_num line
            (u "height must be > 0, found: " ++ float_repr height))
  else if float_lt center_x (float_of_Z 0)
          || float_gt center_x (float_of_Z 1) then
    Some (LabelValidationError_init filename line_num line
            (u "center_x must be in [0, 1], found: " ++ float_repr center_x))
  else if float_lt center_y (float_of_Z 0)
          || float_gt center_y (float_of_Z 1) then
    Some (LabelValidationError_init filename line_num line
            (u "center_y must be in [0, 1], found: " ++ float_repr center_y))
  else
  let x_min := float_sub center_x (float_div width (float_of_Z 2)) in
  let x_max := float_add center_x (float_div width (float_of_Z 2)) in
  let y_min := float_sub center_y (float_div height (float_of_Z 2)) in
  let y_max := float_add center_y (float_div height (float_of_Z 2)) in
  if float_lt x_min (float_of_Z 0) then
    Some (LabelValidationError_init filename line_num line
            (u "Bounding box exceeds left edge: x_min=" ++ format_6f x_min
               ++ u " < 0"))
  else if float_gt x_max (float_of_Z 1) then
    Some (LabelValidationError_init filename line_num line
            (u "Bounding box exceeds right edge: x_max=" ++ format_6f x_max
               ++ u " > 1"))
  else if float_lt y_min (float_of_Z 0) then
    Some (LabelValidationError_init filename line_num line
            (u "Bounding box exceeds top edge: y_min=" ++ format_6f y_min
               ++ u " < 0"))
  else if float_gt y_max (float_of_Z 1) then
    Some (LabelValidationError_init filename line_num line
            (u "Bounding box exceeds bottom edge: y_max=" ++ format_6f y_max
               ++ u " > 1"))
  else None
  end end end
  | _ =>
      Some (LabelValidationError_init filename line_num line
              (u "Expected exactly 5 values, found "
                 ++ str_of_nat (List.length parts)))
  end end.

(** *** Paths, files and the text layer *)

Definition nl : str := [0xa%N].

Fixpoint join (sep : str) (l : list str) : str :=
  match l with
  | [] => []
  | [s] => s
  | s :: rest => s ++ sep ++ join sep rest
  end.

(** A [pathlib.Path] of the Windows flavour the script is written for: drive
    and root, then the components below. *)
Record Path : Type := mkPath {
  anchor : str;
  components : list str
}.

(** [p / child] *)
Definition joinpath (p : Path) (child : str) : Path :=
  {| anchor := anchor p; components := components p ++ [child] |}.

(** [p.name] *)
Definition name (p : Path) : str := last (components p) [].

(** [str(p)] *)
Definition path_str (p : Path) : str :=
  match anchor p, components p with
  | [], [] => u "."
  | a, cs => a ++ join [backslash] cs
  end.

(** What [open] and the reads that follow find at a path: the bytes of the
    file, or the message [str(e)] of the exception raised instead. *)
Inductive read_outcome : Type :=
| OSError (msg : str)
| Bytes (data : list byte).

(** The state of the file system during one run.  [sorted_glob_txt] is
    [sorted(d.glob('*.txt'))]: the paths of the [.txt] entries of directory
    [d] in the order of the platform's path comparison. *)
Record filesystem : Type := mkFilesystem {
  path_exists : Path -> bool;
  sorted_glob_txt : Path -> list Path;
  read_bytes : Path -> read_outcome
}.

(** Universal newlines (the default [newline=None]): [\r\n] and [\r] are
    read as [\n]. *)
Fixpoint translate_newlines (s : str) : str :=
  match s with
  | [] => []
  | c :: s' =>
      if (c =? 0xd)%N then
        0xa%N :: match s' with
                 | d :: s'' =>
                     if (d =? 0xa)%N then translate_newlines s''
                     else translate_newlines s'
                 | [] => []
                 end
      else c :: translate_newlines s'
  end.

(** The lines of a text, each with its newline; [cur] holds the characters
    of the line being read, last one first. *)
Fixpoint lines_from (cur : str) (s : str) : list str :=
  match s with
  | [] => match cur with [] => [] | _ => [rev cur] end
  | c :: s' =>
      if (c =? 0xa)%N then rev (c :: cur) :: lines_from [] s'
      else lines_from (c :: cur) s'
  end.

(** The outcome of [with open(p, 'r', encoding='utf-8') as f] followed by
    [f.readlines()] or by an iteration over [f]. *)
Inductive read_result : Type :=
| RaiseUnicodeDecodeError
| RaiseException (msg : str)
| Lines (lines : list str).

Definition readlines (fs : filesystem) (p : Path) : read_result :=
  match read_bytes fs p with
  | OSError msg => RaiseException msg
  | Bytes data =>
      match Utf8.decode data with
      | None => RaiseUnicodeDecodeError
      | Some text => Lines (lines_from [] (translate_newlines text))
      end
  end.

(** *** [validate_label_file] *)

(** The loop [for line_num, line in enumerate(lines, start=1)]. *)
Fixpoint validate_lines (filename : str) (line_num : Z) (lines : list str)
    (errors : list LabelValidationError) : list LabelValidationError :=
  match lines with
  | [] => errors
  | line :: rest =>
      let error := validate_yolo_line line line_num filename in
      validate_lines filename (line_num + 1) rest
        (match error with
         | Some e => errors ++ [e]
         | None => errors
         end)
  end.

Definition validate_label_file (fs : filesystem) (filepath : Path)
  : list LabelValidationError :=
  let errors := [] in
  match readlines fs filepath with
  | Lines lines =>
      match lines with
      | [] => errors
      | _ :: _ => validate_lines (name filepath) 1 lines errors
      end
  | RaiseUnicodeDecodeError =>
      errors ++ [LabelValidationError_init (name filepath) 0 []
                   (u "File encoding error: not valid UTF-8")]
  | RaiseException e =>
      errors ++ [LabelValidationError_init (name filepath) 0 []
                   (u "File read error: " ++ e)]
  end.

(** *** [scan_dataset] *)

(** What [print] has written so far: one entry per call, its argument. *)
Definition output := list str.

Record scan_state : Type := mkScanState {
  all_errors : list LabelValidationError;
  total_files : Z;
  total_lines : Z;
  printed : output
}.

(** [len([l for l in f if l.strip()])] on a second reading of the file;
    [None] when that reading raises, which the bare [except] swallows. *)
Definition count_lines (fs : filesystem) (txt_file : Path) : option Z :=
  match readlines fs txt_file with
  | Lines lines =>
      Some (Z.of_nat (List.length
              (filter (fun l => match strip l with [] => false | _ => true end)
                      lines)))
  | _ => None
  end.

(** One turn of [for txt_file in txt_files]. *)
Definition scan_file (fs : filesystem) (st : scan_state) (txt_file : Path)
  : scan_state :=
  let total_files := (total_files st + 1)%Z in
  let errors := validate_label_file fs txt_file in
  let all_errors :=
    match errors with
    | [] => all_errors st
    | _ :: _ => all_errors st ++ errors
    end in
  let total_lines :=
    match count_lines fs txt_file with
    | Some line_count => (total_lines st + line_count)%Z
    | None => total_lines st
    end in
  {| all_errors := all_errors; total_files := total_files;
     total_lines := total_lines; printed := printed st |}.

Definition print (st : scan_state) (text : str) : scan_state :=
  {| all_errors := all_errors st; total_files := total_files st;
     total_lines := total_lines st; printed := printed st ++ [text] |}.

(** One turn of [for split in ['train', 'val']]. *)
Definition scan_split (fs : filesystem) (dataset_path : Path)
    (st : scan_state) (split : str) : scan_state :=
  let labels_dir := joinpath (joinpath dataset_path (u "labels")) split in
  if negb (path_exists fs labels_dir) then
    print st (u "WARNING: Directory not found: " ++ path_str labels_dir)
  else
    let st := print st (nl ++ u "Scanning: " ++ path_str labels_dir) in
    let txt_files := sorted_glob_txt fs labels_dir in
    match txt_files with
    | [] => print st (u "   No .txt files found in " ++ split ++ u "/")
    | _ :: _ =>
        let st := print st (u "   Found " ++ str_of_nat (List.length txt_files)
                              ++ u " label file(s)") in
        fold_left (scan_file fs) txt_files st
    end.

(** The state when the function returns; the script's result is the triple
    [(all_errors, total_files, total_lines)] of it. *)
Definition scan_dataset (fs : filesystem) (dataset_path : Path) : scan_state :=
  fold_left (scan_split fs dataset_path) [u "train"; u "val"]
    {| all_errors := []; total_files := 0; total_lines := 0; printed := [] |}.

(** *** [main] *)

Definition dataset_path : Path :=
  {| anchor := u "C:" ++ [backslash];
     components := [u "Gsn Soln"; u "VisionBackend"; u "datasets"; u "gsn";
                    u "ConnectWell"; u "v1"] |}.

Definition rule : str := repeat 0x3d%N 80.

(** [errors_by_file]: a dictionary keeps its keys in insertion order. *)
Fixpoint dict_append (d : list (str * list LabelValidationError))
    (key : str) (error : LabelValidationError)
  : list (str * list LabelValidationError) :=
  match d with
  | [] => [(key, [error])]
  | (k, l) :: d' =>
      if str_eqb k key then (k, l ++ [error]) :: d'
      else (k, l) :: dict_append d' key error
  end.

(** [a < b] on [str]: lexicographic on code points. *)
Fixpoint str_ltb (a b : str) : bool :=
  match a, b with
  | _, [] => false
  | [], _ :: _ => true
  | x :: a', y :: b' => (x <? y)%N || ((x =? y)%N && str_ltb a' b')
  end.

(** [sorted(errors_by_file.items())]: the keys differ pairwise, so the order
    is that of the file names; the sort is stable. *)
Fixpoint insert_item (it : str * list LabelValidationError)
    (l : list (str * list LabelValidationError))
  : list (str * list LabelValidationError) :=
  match l with
  | [] => [it]
  | x :: l' =>
      if str_ltb (fst it) (fst x) then it :: l else x :: insert_item it l'
  end.

Definition sorted_items (d : list (str * list LabelValidationError))
  : list (str * list LabelValidationError) :=
  fold_right insert_item [] d.

(** The lines printed for one finding of the listing. *)
Definition print_error (error : LabelValidationError) : output :=
  (if (0 <? line_num error)%Z
   then [u "   Line " ++ str_of_Z (line_num error) ++ u ": '"
           ++ line_content error ++ u "'"]
   else [])
  ++ [u "   " ++ [0x2192%N] ++ u " " ++ reason error].

Definition impact_text : str :=
  join nl
    [ [];
      u "CRITICAL: Even ONE corrupt label can cause YOLO training to fail.";
      [];
      u "Ultralytics YOLO performs strict validation during dataset loading:";
      u "- Invalid labels cause " ++ [quote2] ++ u "division by zero"
        ++ [quote2] ++ u " or " ++ [quote2] ++ u "index out of range"
        ++ [quote2] ++ u " errors";
      u "- YOLO validates ALL labels before training starts";
      u "- A single corrupt label file can prevent the entire dataset from loading";
      u "- Training will fail immediately with validation errors";
      [];
      u "RECOMMENDATION:";
      u "1. Fix or remove all corrupt label files listed above";
      u "2. Re-run validation to confirm all labels are valid";
      u "3. Only then proceed with YOLO training";
      [];
      u "Common fixes:";
      u "- Remove lines with invalid coordinates";
      u "- Fix out-of-range values (clamp to [0, 1])";
      u "- Remove zero-width or zero-height boxes";
      u "- Fix malformed lines (ensure exactly 5 values)";
      u "        " ].

(** The process: what it prints and the status it exits with.  Both
    [sys.exit] calls end the run; the second is the last statement. *)
Definition main (fs : filesystem) : output * Z :=
  if negb (path_exists fs dataset_path) then
    ([u "ERROR: Dataset path does not exist: " ++ path_str dataset_path], 1%Z)
  else
    let out :=
      [rule; u "YOLO Label File Validator"; rule;
       u "Dataset: " ++ path_str dataset_path; []] in
    let st := scan_dataset fs dataset_path in
    let errors := all_errors st in
    let out := out ++ printed st in
    let out :=
      out ++
      [nl ++ rule; u "VALIDATION RESULTS"; rule;
       u "Total label files scanned: " ++ str_of_Z (total_files st);
       u "Total annotation lines: " ++ str_of_Z (total_lines st);
       u "Total errors found: " ++ str_of_nat (List.length errors);
       [];
       u "Validation checks performed:";
       u "  - Each line has exactly 5 values (class_id center_x center_y width height)";
       u "  - class_id is a non-negative integer";
       u "  - center_x, center_y, width, height are finite numbers (not NaN/Infinity)";
       u "  - width > 0 and height > 0 (no zero-width/height boxes)";
       u "  - center_x and center_y are within [0, 1]";
       u "  - Bounding boxes do not exceed image bounds";
       u "  - File encoding is valid UTF-8";
       []] in
    let out :=
      match errors with
      | [] =>
          out ++
          [u "SUCCESS: ALL LABELS ARE VALID";
           nl ++ u "All label files passed validation according to Ultralytics YOLO requirements.";
           u "No corrupt or invalid annotations detected."]
      | _ :: _ =>
          let errors_by_file :=
            fold_left (fun d error => dict_append d (filename error) error)
                      errors [] in
          out ++
          [u "ERROR: CORRUPT LABELS DETECTED";
           nl ++ u "The following label files contain invalid annotations:" ++ nl]
          ++ flat_map
               (fun item =>
                  (nl ++ u "File: " ++ fst item ++ u ":")
                    :: flat_map print_error (snd item))
               (sorted_items errors_by_file)
          ++ [nl ++ rule; u "IMPACT ANALYSIS"; rule; impact_text]
      end in
    let out := out ++ [rule] in
    (out, match errors with [] => 0%Z | _ :: _ => 1%Z end).

(** ** Notions the statements below are written with *)

(** A line made of blanks only. *)
Definition is_blank (line : str) : bool := forallb isspace line.

Definition is_finite (x : float) : bool := negb (isnan x) && negb (isinf x).

(** [0 <= x <= 1] *)
Definition in_unit_interval (x : float) : bool :=
  float_le (float_of_Z 0) x && float_le x (float_of_Z 1).

(** The derived edges, as the script computes them. *)
Definition edge_min (center size : float) : float :=
  float_sub center (float_div size (float_of_Z 2)).
Definition edge_max (center size : float) : float :=
  float_add center (float_div size (float_of_Z 2)).

(** [needle in hay] *)
Fixpoint starts_with (needle hay : str) : bool :=
  match needle, hay with
  | [], _ => true
  | x :: n', y :: h' => (x =? y)%N && starts_with n' h'
  | _ :: _, [] => false
  end.

Fixpoint str_contains (needle hay : str) : bool :=
  starts_with needle hay
  || match hay with
     | [] => false
     | _ :: h' => str_contains needle h'
     end.

(** *** The checks of a line, one by one

    Each check looks at the tokens of the line on its own: it answers with
    the reason of its violation, or with [None] when it is satisfied or does
    not apply because a value it needs cannot be read.  [checks] lists them
    in the order of the contract. *)

Definition check := list str -> option str.

Definition token (i : nat) (parts : list str) : str := nth i parts [].

Definition coord (i : nat) (parts : list str) : option float :=
  match py_float (token i parts) with
  | Ok x => Some x
  | ValueError _ => None
  end.

Definition check_count : check := fun parts =>
  if Nat.eqb (List.length parts) 5 then None
  else Some (u "Expected exactly 5 values, found "
               ++ str_of_nat (List.length parts)).

Definition check_class_id_integer : check := fun parts =>
  match py_int (token 0 parts) with
  | None =>
      Some (u "class_id must be integer, found: '" ++ token 0 parts ++ u "'")
  | Some _ => None
  end.

Definition check_class_id_sign : check := fun parts =>
  match py_int (token 0 parts) with
  | Some class_id =>
      if (class_id <? 0)%Z
      then Some (u "class_id must be non-negative integer, found: "
                   ++ str_of_Z class_id)
      else None
  | None => None
  end.

Definition check_parses (i : nat) : check := fun parts =>
  match py_float (token i parts) with
  | ValueError e => Some (u "Invalid numeric value: " ++ e)
  | Ok _ => None
  end.

Definition check_not_nan (i : nat) : check := fun parts =>
  match coord i parts with
  | Some x =>
      if isnan x then Some (nth (i - 1) coord_names [] ++ u " is NaN") else None
  | None => None
  end.

Definition check_not_inf (i : nat) : check := fun parts =>
  match coord i parts with
  | Some x =>
      if isinf x then Some (nth (i - 1) coord_names [] ++ u " is Infinity")
      else None
  | None => None
  end.

Definition check_positive (i : nat) (message : str) : check := fun parts =>
  match coord i parts with
  | Some x =>
      if float_le x (float_of_Z 0) then Some (message ++ float_repr x)
      else None
  | None => None
  end.

Definition check_center (i : nat) (message : str) : check := fun parts =>
  match coord i parts with
  | Some x =>
      if float_lt x (float_of_Z 0) || float_gt x (float_of_Z 1)
      then Some (message ++ float_repr x)
      else None
  | None => None
  end.

Definition check_edge_min (ic isz : nat) (message : str) : check :=
  fun parts =>
  match coord ic parts, coord isz parts with
  | Some c, Some s =>
      if float_lt (edge_min c s) (float_of_Z 0)
      then Some (message ++ format_6f (edge_min c s) ++ u " < 0")
      else None
  | _, _ => None
  end.

Definition check_edge_max (ic isz : nat) (message : str) : check :=
  fun parts =>
  match coord ic parts, coord isz parts with
  | Some c, Some s =>
      if float_gt (edge_max c s) (float_of_Z 1)
      then Some (message ++ format_6f (edge_max c s) ++ u " > 1")
      else None
  | _, _ => None
  end.

Definition checks : list check :=
  [ check_count;
    check_class_id_integer; check_class_id_sign;
    check_parses 1; check_parses 2; check_parses 3; check_parses 4;
    check_not_nan 1; check_not_inf 1; check_not_nan 2; check_not_inf 2;
    check_not_nan 3; check_not_inf 3; check_not_nan 4; check_not_inf 4;
    check_positive 3 (u "width must be > 0, found: ");
    check_positive 4 (u "height must be > 0, found: ");
    check_center 1 (u "center_x must be in [0, 1], found: ");
    check_center 2 (u "center_y must be in [0, 1], found: ");
    check_edge_min 1 3 (u "Bounding box exceeds left edge: x_min=");
    check_edge_max 1 3 (u "Bounding box exceeds right edge: x_max=");
    check_edge_min 2 4 (u "Bounding box exceeds top edge: y_min=");
    check_edge_max 2 4 (u "Bounding box exceeds bottom edge: y_max=") ].

(** The answer of the first check of [cs] that is violated. *)
Fixpoint first_violation (cs : list check) (parts : list str) : option str :=
  match cs with
  | [] => None
  | c :: cs' =>
      match c parts with
      | Some why => Some why
      | None => first_violation cs' parts
      end
  end.

(** *** The files a scan visits *)

Definition labels_dir (root : Path) (split : str) : Path :=
  joinpath (joinpath root (u "labels")) split.

Definition scanned_files (fs : filesystem) (root : Path) : list Path :=
  flat_map
    (fun split =>
       if path_exists fs (labels_dir root split)
       then sorted_glob_txt fs (labels_dir root split)
       else [])
    [u "train"; u "val"].

(** What one file adds to the line count: its lines that are not blank when
    it can be read, nothing otherwise. *)
Definition nonblank_lines (fs : filesystem) (p : Path) : Z :=
  match readlines fs p with
  | Lines lines =>
      Z.of_nat (List.length (filter (fun l => negb (is_blank l)) lines))
  | _ => 0%Z
  end.

Definition Z_sum (l : list Z) : Z := fold_right Z.add 0%Z l.

(** *** Sample inputs *)

Definition sample_file : Path :=
  joinpath (labels_dir dataset_path (u "train")) (u "a.txt").

(** A blank line, a valid line and a line of zero width. *)
Definition sample_bytes : list byte :=
  [x0a] ++ list_byte_of_string "0 0.5 0.5 0.2 0.2" ++ [x0a]
        ++ list_byte_of_string "0 0.5 0.5 0 0.2" ++ [x0a].

(** Every directory exists and holds the one file [a.txt], whose reading
    gives [content]. *)
Definition sample_fs (content : read_outcome) : filesystem :=
  {| path_exists := fun _ => true;
     sorted_glob_txt := fun _ => [sample_file];
     read_bytes := fun _ => content |}.

(** The dataset root exists, nothing below it does. *)
Definition bare_root_fs : filesystem :=
  {| path_exists := fun p => Nat.leb (List.length (components p)) 6;
     sorted_glob_txt := fun _ => [];
     read_bytes := fun _ => OSError (u "[Errno 2] No such file or directory") |}.

(** *** Notions of the further properties *)

(** The file cannot be opened, read or decoded. *)
Definition unreadable (fs : filesystem) (p : Path) : bool :=
  match readlines fs p with
  | Lines _ => false
  | _ => true
  end.

(** The dictionary [errors_by_file] that [main] builds from the findings. *)
Definition errors_by_file (errors : list LabelValidationError)
  : list (str * list LabelValidationError) :=
  fold_left (fun d error => dict_append d (filename error) error) errors [].

(** The lines [main] prints for the groups of the listing. *)
Definition listing (items : list (str * list LabelValidationError)) : output :=
  flat_map
    (fun item =>
       (nl ++ u "File: " ++ fst item ++ u ":")
         :: flat_map print_error (snd item))
    items.

(** [a] does not come after [b] in the order of the file names. *)
Definition key_le (a b : str * list LabelValidationError) : Prop :=
  str_ltb (fst b) (fst a) = false.

(** Two file systems that show a scan of [root] the same directories, the
    same listings and the same bytes in the listed files. *)
Definition same_labels (fs1 fs2 : filesystem) (root : Path) : Prop :=
  forall split : str,
    In split [u "train"; u "val"] ->
    path_exists fs1 (labels_dir root split)
    = path_exists fs2 (labels_dir root split)
    /\ sorted_glob_txt fs1 (labels_dir root split)
       = sorted_glob_txt fs2 (labels_dir root split)
    /\ (path_exists fs1 (labels_dir root split) = true ->
        forall p : Path,
          In p (sorted_glob_txt fs1 (labels_dir root split)) ->
          read_bytes fs1 p = read_bytes fs2 p).

(** As [sample_fs], but the dataset root has a second, unrelated entry. *)
Definition sample_fs_with_notes (content : read_outcome) : filesystem :=
  {| path_exists := fun _ => true;
     sorted_glob_txt :=
       fun d => if Nat.eqb (List.length (components d)) 8
                then [sample_file] else [joinpath d (u "notes.txt")];
     read_bytes :=
       fun p => if str_eqb (name p) (u "a.txt") then content
                else Bytes (list_byte_of_string "not a label") |}.

(** What a scan prints for one partition. *)
Definition split_report (fs : filesystem) (root : Path) (split : str)
  : output :=
  if path_exists fs (labels_dir root split) then
    [nl ++ u "Scanning: " ++ path_str (labels_dir root split);
     match sorted_glob_txt fs (labels_dir root split) with
     | [] => u "   No .txt files found in " ++ split ++ u "/"
     | files =>
         u "   Found " ++ str_of_nat (List.length files) ++ u " label file(s)"
     end]
  else [u "WARNING: Directory not found: " ++ path_str (labels_dir root split)].

(** [a] comes before [b] in the order of the file names. *)
Definition key_lt (a b : str * list LabelValidationError) : Prop :=
  str_ltb (fst a) (fst b) = true.

(** * Properties *)

(** ** Stripping *)

Lemma lstrip_head (s : str) (c : char) (t : str) :
  lstrip s = c :: t -> isspace c = false.
Proof.
  induction s as [|a s IH]; simpl; [discriminate|].
  destruct (isspace a) eqn:Ha; [exact IH|].
  intros H; injection H as -> _; exact Ha.
Qed.

Lemma rstrip_cons_nonspace (c : char) (s : str) :
  isspace c = false -> rstrip (c :: s) = c :: rstrip s.
Proof.
  intros Hc; simpl; rewrite Hc; destruct (rstrip s); reflexivity.
Qed.

Lemma rstrip_idempotent (s : str) : rstrip (rstrip s) = rstrip s.
Proof.
  induction s as [|c s IH]; [reflexivity|].
  simpl. destruct (rstrip s) as [|d t] eqn:Hs.
  - destruct (isspace c) eqn:Hc; [reflexivity|].
    simpl; rewrite Hc; reflexivity.
  - change (rstrip (c :: d :: t)) with
      (match rstrip (d :: t) with
       | [] => if isspace c then [] else [c]
       | x :: r => c :: x :: r
       end).
    rewrite IH; reflexivity.
Qed.

Lemma strip_head (s : str) (c : char) (t : str) :
  strip s = c :: t -> isspace c = false.
Proof.
  unfold strip. destruct (lstrip s) as [|a r] eqn:Hl; [discriminate|].
  pose proof (lstrip_head _ _ _ Hl) as Ha.
  rewrite (rstrip_cons_nonspace _ _ Ha). intros H; injection H as -> _; exact Ha.
Qed.

Lemma lstrip_strip (s : str) : lstrip (strip s) = strip s.
Proof.
  destruct (strip s) as [|c t] eqn:Hs; [reflexivity|].
  simpl; rewrite (strip_head _ _ _ Hs); reflexivity.
Qed.

Lemma strip_idempotent (s : str) : strip (strip s) = strip s.
Proof.
  unfold strip at 1. rewrite lstrip_strip. unfold strip.
  apply rstrip_idempotent.
Qed.

Lemma lstrip_nil_iff (s : str) : lstrip s = [] <-> is_blank s = true.
Proof.
  unfold is_blank. induction s as [|c s IH]; simpl; [tauto|].
  destruct (isspace c); simpl; [exact IH|].
  split; discriminate.
Qed.

Lemma rstrip_nil_iff (s : str) : rstrip s = [] <-> is_blank s = true.
Proof.
  unfold is_blank. induction s as [|c s IH]; simpl; [tauto|].
  destruct (rstrip s) as [|d t].
  - destruct (isspace c); simpl.
    + split; intros _; [apply IH|]; reflexivity.
    + split; discriminate.
  - split; [discriminate|].
    intros H. apply andb_true_iff in H as [_ H]. apply IH in H. discriminate.
Qed.

Lemma strip_nil_iff (s : str) : strip s = [] <-> is_blank s = true.
Proof.
  unfold strip. split.
  - intros H. destruct (lstrip s) as [|c t] eqn:Hl.
    + apply lstrip_nil_iff; exact Hl.
    + rewrite (rstrip_cons_nonspace _ _ (lstrip_head _ _ _ Hl)) in H. discriminate.
  - intros H. apply lstrip_nil_iff in H. rewrite H. reflexivity.
Qed.

(** ** Comparisons of floats *)

Lemma SFcompare_swap (x y : float) :
  SFcompare y x = option_map CompOpp (SFcompare x y).
Proof.
  destruct x as [sx|sx| |sx mx ex], y as [sy|sy| |sy my ey]; simpl;
    try reflexivity;
    try (destruct sx; reflexivity);
    try (destruct sy; reflexivity);
    try (destruct sx, sy; reflexivity).
  destruct sx, sy; simpl; try reflexivity;
    rewrite (Z.compare_antisym ey ex);
    destruct (ey ?= ex)%Z; simpl; try reflexivity;
    rewrite (Pos.compare_cont_antisym mx my Eq); simpl;
    try rewrite CompOpp_involutive; reflexivity.
Qed.

Lemma float_le_not_lt (x y : float) :
  float_le x y = true -> float_lt y x = false.
Proof.
  unfold float_le, float_lt, SFleb, SFltb. rewrite (SFcompare_swap x y).
  destruct (SFcompare x y) as [[]|]; simpl; congruence.
Qed.

Lemma float_lt_not_le (x y : float) :
  float_lt x y = true -> float_le y x = false.
Proof.
  unfold float_le, float_lt, SFleb, SFltb. rewrite (SFcompare_swap x y).
  destruct (SFcompare x y) as [[]|]; simpl; congruence.
Qed.

(** ** The line validator as a first-failure search *)

Ltac case_on t := destruct t; cbv beta iota; try reflexivity.

Lemma validate_yolo_line_checks (line : str) (line_num : Z) (filename : str) :
  validate_yolo_line line line_num filename =
  match strip line with
  | [] => None
  | _ :: _ =>
      option_map (LabelValidationError_init filename line_num (strip line))
                 (first_violation checks (split (strip line)))
  end.
Proof.
  unfold validate_yolo_line.
  destruct (strip line) as [|c0 rest0]; [reflexivity|].
  cbv beta iota zeta.
  generalize (split (c0 :: rest0)) as parts.
  intros [|t1 [|t2 [|t3 [|t4 [|t5 [|t6 parts]]]]]];
    cbv [checks first_violation check_count check_class_id_integer
         check_class_id_sign check_parses check_not_nan check_not_inf
         check_positive check_center check_edge_min check_edge_max coord
         token edge_min edge_max check_nan_inf bind option_map coord_names
         Datatypes.length nth Nat.eqb Nat.sub];
    try reflexivity.
  case_on (py_int t1).
  case_on (z <? 0)%Z.
  case_on (py_float t2). rename a into center_x.
  case_on (py_float t3). rename a into center_y.
  case_on (py_float t4). rename a into width.
  case_on (py_float t5). rename a into height.
  case_on (isnan center_x). case_on (isinf center_x).
  case_on (isnan center_y). case_on (isinf center_y).
  case_on (isnan width). case_on (isinf width).
  case_on (isnan height). case_on (isinf height).
  case_on (float_le width (float_of_Z 0)).
  case_on (float_le height (float_of_Z 0)).
  case_on (float_lt center_x (float_of_Z 0) || float_gt center_x (float_of_Z 1)).
  case_on (float_lt center_y (float_of_Z 0) || float_gt center_y (float_of_Z 1)).
  case_on (float_lt (float_sub center_x (float_div width (float_of_Z 2)))
                    (float_of_Z 0)).
  case_on (float_gt (float_add center_x (float_div width (float_of_Z 2)))
                    (float_of_Z 1)).
  case_on (float_lt (float_sub center_y (float_div height (float_of_Z 2)))
                    (float_of_Z 0)).
  case_on (float_gt (float_add center_y (float_div height (float_of_Z 2)))
                    (float_of_Z 1)).
Qed.

Lemma first_violation_prefix (before : list check) (c : check)
    (after : list check) (parts : list str) (why : str) :
  (forall c', In c' before -> c' parts = None) ->
  c parts = Some why ->
  first_violation (before ++ c :: after) parts = Some why.
Proof.
  induction before as [|b before IH]; simpl; intros Hb Hc.
  - rewrite Hc; reflexivity.
  - rewrite (Hb b (or_introl eq_refl)). apply IH; [|exact Hc].
    intros c' Hin; apply Hb; right; exact Hin.
Qed.

Lemma first_violation_none (cs : list check) (parts : list str) :
  (forall c, In c cs -> c parts = None) -> first_violation cs parts = None.
Proof.
  induction cs as [|b cs IH]; simpl; intros Hb; [reflexivity|].
  rewrite (Hb b (or_introl eq_refl)). apply IH.
  intros c Hin; apply Hb; right; exact Hin.
Qed.

(** What a finding of the line validator holds. *)
Lemma validate_yolo_line_finding (line : str) (n : Z) (fname : str)
    (e : LabelValidationError) :
  validate_yolo_line line n fname = Some e ->
  filename e = fname /\ line_num e = n
  /\ line_content e = strip line /\ strip line <> [] /\ is_blank line = false.
Proof.
  rewrite validate_yolo_line_checks.
  destruct (strip line) as [|c t] eqn:Hs; [discriminate|].
  destruct (first_violation checks (split (c :: t))) as [why|]; [|discriminate].
  simpl. intros H; injection H as <-. simpl.
  rewrite <- Hs, strip_idempotent.
  repeat split; try reflexivity.
  - rewrite Hs; discriminate.
  - destruct (is_blank line) eqn:Hb; [|reflexivity].
    apply strip_nil_iff in Hb. rewrite Hb in Hs. discriminate.
Qed.

Lemma validate_yolo_line_blank (line : str) (line_num : Z) (filename : str) :
  is_blank line = true -> validate_yolo_line line line_num filename = None.
Proof.
  intros Hb. apply strip_nil_iff in Hb.
  unfold validate_yolo_line. rewrite Hb. reflexivity.
Qed.

(** ** The file validator *)

Lemma validate_lines_app (filename : str) (lines : list str) :
  forall (line_num : Z) (errors : list LabelValidationError),
    validate_lines filename line_num lines errors
    = errors ++ validate_lines filename line_num lines [].
Proof.
  induction lines as [|l lines IH]; intros n errors; simpl.
  - rewrite app_nil_r; reflexivity.
  - rewrite IH. rewrite (IH _ (match _ with Some e => [e] | None => [] end)).
    destruct (validate_yolo_line l n filename); simpl.
    + rewrite <- app_assoc; reflexivity.
    + reflexivity.
Qed.

Lemma validate_lines_In (filename : str) (lines : list str) :
  forall (line_num : Z) (e : LabelValidationError),
    In e (validate_lines filename line_num lines []) <->
    exists (i : nat) (line : str),
      nth_error lines i = Some line
      /\ validate_yolo_line line (line_num + Z.of_nat i) filename = Some e.
Proof.
  induction lines as [|l lines IH]; intros n e; simpl.
  - split; [tauto|]. intros (i & line & H & _). destruct i; discriminate.
  - rewrite validate_lines_app, in_app_iff, IH. split.
    + intros [H|(i & line & Hn & Hv)].
      * exists 0%nat, l. split; [reflexivity|].
        rewrite Z.add_0_r.
        destruct (validate_yolo_line l n filename) as [e'|]; [|contradiction].
        destruct H as [->|[]]; reflexivity.
      * exists (S i), line. split; [exact Hn|].
        rewrite Nat2Z.inj_succ. rewrite <- Hv. f_equal. lia.
    + intros ([|i] & line & Hn & Hv).
      * left. simpl in Hn. injection Hn as ->.
        rewrite Z.add_0_r in Hv. rewrite Hv. left; reflexivity.
      * right. exists i, line. split; [exact Hn|].
        rewrite <- Hv. f_equal. lia.
Qed.

Lemma validate_label_file_lines (fs : filesystem) (p : Path) (lines : list str) :
  readlines fs p = Lines lines ->
  validate_label_file fs p = validate_lines (name p) 1 lines [].
Proof.
  intros H. unfold validate_label_file. rewrite H.
  destruct lines; reflexivity.
Qed.

(** ** The scanner *)

Lemma count_lines_nonblank (fs : filesystem) (p : Path) :
  nonblank_lines fs p
  = match count_lines fs p with Some n => n | None => 0%Z end.
Proof.
  unfold nonblank_lines, count_lines.
  destruct (readlines fs p) as [| |lines]; try reflexivity.
  do 2 f_equal. apply filter_ext. intros l.
  destruct (strip l) eqn:Hs.
  - apply strip_nil_iff in Hs. rewrite Hs. reflexivity.
  - destruct (is_blank l) eqn:Hb; [|reflexivity].
    apply strip_nil_iff in Hb. rewrite Hb in Hs. discriminate.
Qed.

Lemma scan_files_state (fs : filesystem) (files : list Path) :
  forall st : scan_state,
    all_errors (fold_left (scan_file fs) files st)
    = all_errors st ++ flat_map (validate_label_file fs) files
    /\ total_files (fold_left (scan_file fs) files st)
       = (total_files st + Z.of_nat (List.length files))%Z
    /\ total_lines (fold_left (scan_file fs) files st)
       = (total_lines st + Z_sum (map (nonblank_lines fs) files))%Z
    /\ printed (fold_left (scan_file fs) files st) = printed st.
Proof.
  induction files as [|p files IH]; intros st.
  - simpl. rewrite app_nil_r, !Z.add_0_r. repeat split; reflexivity.
  - destruct (IH (scan_file fs st p)) as (He & Hf & Hl & Hp).
    cbn [fold_left flat_map map Z_sum fold_right List.length].
    rewrite He, Hf, Hl, Hp. unfold scan_file; cbn [all_errors total_files total_lines printed].
    rewrite count_lines_nonblank.
    repeat split.
    + destruct (validate_label_file fs p); simpl;
        [reflexivity | rewrite <- app_assoc; reflexivity].
    + lia.
    + fold (Z_sum (map (nonblank_lines fs) files)).
      destruct (count_lines fs p); lia.
Qed.

(** ** The line validator *)

Lemma is_finite_true (x : float) :
  is_finite x = true -> isnan x = false /\ isinf x = false.
Proof.
  unfold is_finite. intros H. apply andb_true_iff in H as [H1 H2].
  apply negb_true_iff in H1, H2. split; assumption.
Qed.

Lemma in_unit_interval_true (x : float) :
  in_unit_interval x = true ->
  float_lt x (float_of_Z 0) = false /\ float_gt x (float_of_Z 1) = false.
Proof.
  unfold in_unit_interval, float_gt. intros H.
  apply andb_true_iff in H as [H0 H1].
  split; apply float_le_not_lt; assumption.
Qed.

(** C1: a line of exactly five tokens whose first token reads as an integer
    that is not negative, whose other four tokens read as finite floats with
    positive width and height, a centre inside the unit square and the four
    derived edges inside the unit interval, gets no finding, whatever the
    line number and the file name. *)
Theorem validate_yolo_line_accepts_valid :
  forall (line : str) (n : Z) (fname : str)
         (t1 t2 t3 t4 t5 : str) (class_id : Z)
         (center_x center_y width height : float),
    split (strip line) = [t1; t2; t3; t4; t5] ->
    py_int t1 = Some class_id -> (0 <= class_id)%Z ->
    py_float t2 = Ok center_x -> py_float t3 = Ok center_y ->
    py_float t4 = Ok width -> py_float t5 = Ok height ->
    is_finite center_x = true -> is_finite center_y = true ->
    is_finite width = true -> is_finite height = true ->
    float_gt width (float_of_Z 0) = true ->
    float_gt height (float_of_Z 0) = true ->
    in_unit_interval center_x = true -> in_unit_interval center_y = true ->
    in_unit_interval (edge_min center_x width) = true ->
    in_unit_interval (edge_max center_x width) = true ->
    in_unit_interval (edge_min center_y height) = true ->
    in_unit_interval (edge_max center_y height) = true ->
    validate_yolo_line line n fname = None.
Proof.
  intros line n fname t1 t2 t3 t4 t5 class_id center_x center_y width height
         Hsplit Hint Hsign Hx Hy Hw Hh Fx Fy Fw Fh Pw Ph Cx Cy
         Xmin Xmax Ymin Ymax.
  unfold validate_yolo_line.
  destruct (strip line) as [|c0 rest0]; [reflexivity|].
  cbv beta iota zeta. rewrite Hsplit, Hint.
  replace (class_id <? 0)%Z with false by (symmetry; apply Z.ltb_ge; exact Hsign).
  rewrite Hx, Hy, Hw, Hh. cbv [bind check_nan_inf].
  apply is_finite_true in Fx as [-> ->], Fy as [-> ->],
                          Fw as [-> ->], Fh as [-> ->].
  unfold float_gt in Pw, Ph.
  rewrite (float_lt_not_le _ _ Pw), (float_lt_not_le _ _ Ph).
  apply in_unit_interval_true in Cx as [-> ->], Cy as [-> ->].
  apply in_unit_interval_true in Xmin as [Xmin _], Xmax as [_ Xmax],
                                 Ymin as [Ymin _], Ymax as [_ Ymax].
  unfold edge_min in Xmin, Ymin. unfold edge_max in Xmax, Ymax.
  rewrite Xmin, Xmax, Ymin, Ymax. reflexivity.
Qed.

Lemma validate_yolo_line_accepts_valid_witness :
  validate_yolo_line (u "0 0.5 0.5 0.2 0.2") 1 (u "a.txt") = None.
Proof.
  eapply (validate_yolo_line_accepts_valid
            (u "0 0.5 0.5 0.2 0.2") 1 (u "a.txt")
            (u "0") (u "0.5") (u "0.5") (u "0.2") (u "0.2") 0);
    try (vm_compute; reflexivity).
  vm_compute; discriminate.
Defined.

(** C2: on a line that is not blank, the finding is the one of the first
    check of [checks] that is violated: when the checks before a check pass
    and this check fails with reason [why], the result is the single finding
    with that reason, whatever the checks after it say; and when no check
    fails there is no finding.  The order of [checks] is token count, class
    id an integer, class id not negative, the four coordinates parsing, NaN
    and infinity per coordinate, width, height, center_x, center_y, then
    x_min, x_max, y_min, y_max. *)
Theorem validate_yolo_line_first_violation :
  forall (line : str) (n : Z) (fname : str),
    strip line <> [] ->
    (forall (before : list check) (c : check) (after : list check) (why : str),
        checks = before ++ c :: after ->
        (forall c', In c' before -> c' (split (strip line)) = None) ->
        c (split (strip line)) = Some why ->
        validate_yolo_line line n fname
        = Some (LabelValidationError_init fname n (strip line) why))
    /\ ((forall c, In c checks -> c (split (strip line)) = None) ->
        validate_yolo_line line n fname = None).
Proof.
  intros line n fname Hne. rewrite validate_yolo_line_checks.
  destruct (strip line) as [|c0 rest0] eqn:Hs; [contradiction|]. split.
  - intros before c after why Hc Hbefore Hfail.
    rewrite Hc, (first_violation_prefix before c after _ why Hbefore Hfail).
    reflexivity.
  - intros Hall. rewrite (first_violation_none checks _ Hall). reflexivity.
Qed.

Lemma validate_yolo_line_first_violation_witness :
  validate_yolo_line (u "0 2 0.5 -1 0.2") 7 (u "a.txt")
  = Some (LabelValidationError_init (u "a.txt") 7 (strip (u "0 2 0.5 -1 0.2"))
            (u "width must be > 0, found: -1.0")).
Proof.
  assert (Hne : strip (u "0 2 0.5 -1 0.2") <> []) by (vm_compute; discriminate).
  apply (proj1 (validate_yolo_line_first_violation
                  (u "0 2 0.5 -1 0.2") 7 (u "a.txt") Hne)
               (firstn 15 checks)
               (check_positive 3 (u "width must be > 0, found: "))
               (skipn 16 checks)).
  - reflexivity.
  - intros c' Hin. cbv [checks firstn In] in Hin.
    repeat (destruct Hin as [<-|Hin]; [vm_compute; reflexivity|]).
    contradiction.
  - vm_compute; reflexivity.
Defined.

(** C3, as the specification words it: on the line [0 0.5 0.5 1.2 0.2] the
    reason of the finding would speak of the right edge.  It does not: no
    finding for this line has a reason that mentions the right edge. *)
Lemma wide_box_reason_is_not_right_edge :
  ~ (exists e : LabelValidationError,
        validate_yolo_line (u "0 0.5 0.5 1.2 0.2") 1 (u "a.txt") = Some e
        /\ str_contains (u "right edge") (reason e) = true).
Proof.
  intros (e & He & Hr). vm_compute in He. injection He as <-.
  vm_compute in Hr. discriminate.
Qed.

(** C3, amended: on the line [0 0.5 0.5 1.2 0.2], at any line number and in
    any file, the finding speaks of the left edge, with x_min = -0.100000;
    the right edge, x_max = 1.100000, is beyond 1 as well, but the left edge
    is checked first. *)
Theorem wide_box_reports_left_edge :
  forall (n : Z) (fname : str),
    validate_yolo_line (u "0 0.5 0.5 1.2 0.2") n fname
    = Some {| filename := fname;
              line_num := n;
              line_content := u "0 0.5 0.5 1.2 0.2";
              reason := u "Bounding box exceeds left edge: x_min=-0.100000 < 0" |}
    /\ (exists center_x width : float,
           py_float (u "0.5") = Ok center_x /\ py_float (u "1.2") = Ok width
           /\ float_lt (edge_min center_x width) (float_of_Z 0) = true
           /\ format_6f (edge_min center_x width) = u "-0.100000"
           /\ float_gt (edge_max center_x width) (float_of_Z 1) = true
           /\ format_6f (edge_max center_x width) = u "1.100000").
Proof.
  intros n fname. split.
  - vm_compute. reflexivity.
  - eexists. eexists. split; [vm_compute; reflexivity|].
    split; [vm_compute; reflexivity|].
    vm_compute. repeat split; reflexivity.
Qed.

(** ** Findings *)

(** C4: a finding the line validator makes for a line at a 1-based position
    has that position as line number, and its text is the line stripped,
    which is not empty; a finding of the file validator has line number 0 and
    an empty text, or a line number of at least 1 and as text the stripped
    line of the file at that position, which is not empty. *)
Theorem finding_text_invariant :
  (forall (line : str) (n : Z) (fname : str) (e : LabelValidationError),
      (1 <= n)%Z ->
      validate_yolo_line line n fname = Some e ->
      (line_num e = 0%Z -> line_content e = [])
      /\ (1 <= line_num e)%Z
      /\ line_content e <> [] /\ line_content e = strip line)
  /\
  (forall (fs : filesystem) (p : Path) (e : LabelValidationError),
      In e (validate_label_file fs p) ->
      (line_num e = 0%Z -> line_content e = [])
      /\ (line_num e <> 0%Z ->
          (1 <= line_num e)%Z /\ line_content e <> []
          /\ exists (lines : list str) (line : str),
              readlines fs p = Lines lines
              /\ nth_error lines (Z.to_nat (line_num e - 1)) = Some line
              /\ line_content e = strip line)).
Proof.
  split.
  - intros line n fname e Hn He.
    destruct (validate_yolo_line_finding _ _ _ _ He) as (_ & Hnum & Hc & Hne & _).
    rewrite Hnum, Hc. repeat split; [lia | exact Hn | exact Hne].
  - intros fs p e Hin. unfold validate_label_file in Hin.
    destruct (readlines fs p) as [|msg|lines] eqn:Hr.
    + destruct Hin as [<-|[]]. split; [reflexivity|].
      intros H; exfalso; apply H; reflexivity.
    + destruct Hin as [<-|[]]. split; [reflexivity|].
      intros H; exfalso; apply H; reflexivity.
    + assert (Hin' : In e (validate_lines (name p) 1 lines []))
        by (destruct lines; [destruct Hin | exact Hin]).
      apply validate_lines_In in Hin' as (i & line & Hnth & He).
      destruct (validate_yolo_line_finding _ _ _ _ He) as (_ & Hnum & Hc & Hne & _).
      rewrite Hnum, Hc. split; [lia|]. intros _.
      repeat split; [lia | exact Hne |].
      exists lines, line. repeat split.
      replace (Z.to_nat (1 + Z.of_nat i - 1)) with i by lia. exact Hnth.
Qed.

Lemma finding_text_invariant_witness :
  (exists e, validate_yolo_line (u " 0 0.5 0.5 0.2 ") 4 (u "a.txt") = Some e
             /\ line_content e = strip (u " 0 0.5 0.5 0.2 "))
  /\ (forall e, In e (validate_label_file (sample_fs (Bytes sample_bytes))
                                          sample_file) ->
                line_num e = 0%Z -> line_content e = []).
Proof.
  split.
  - eexists. split; [vm_compute; reflexivity|].
    refine (proj2 (proj2 (proj2
              (proj1 finding_text_invariant (u " 0 0.5 0.5 0.2 ") 4%Z (u "a.txt")
                     _ _ _)))).
    + lia.
    + vm_compute; reflexivity.
  - intros e Hin.
    exact (proj1 (proj2 finding_text_invariant
                        (sample_fs (Bytes sample_bytes)) sample_file e Hin)).
Defined.

(** C10: whether a line gets a finding, and with which reason and text,
    depends on the line alone: two calls on the same line either both give
    no finding, or give findings with the same reason and the same text,
    each carrying the file name and line number of its own call. *)
Theorem validate_yolo_line_verdict_of_line_alone :
  forall (line : str) (n1 n2 : Z) (fname1 fname2 : str),
    match validate_yolo_line line n1 fname1,
          validate_yolo_line line n2 fname2 with
    | None, None => True
    | Some e1, Some e2 =>
        reason e1 = reason e2 /\ line_content e1 = line_content e2
        /\ filename e1 = fname1 /\ line_num e1 = n1
        /\ filename e2 = fname2 /\ line_num e2 = n2
    | _, _ => False
    end.
Proof.
  intros line n1 n2 fname1 fname2. rewrite !validate_yolo_line_checks.
  destruct (strip line) as [|c0 rest0]; [exact I|].
  destruct (first_violation checks (split (c0 :: rest0))); simpl;
    [repeat split; reflexivity | exact I].
Qed.

(** ** Files *)

(** C7: a file read as a blank line, a valid line and an invalid line gets
    exactly one finding, with line number 3; a blank line gets no finding at
    any position; and a line that gets a finding gets it with its 1-based
    position in the file as line number, the lines before it counted whether
    blank or not. *)
Theorem blank_valid_invalid_file :
  (forall (fs : filesystem) (p : Path) (l1 l2 l3 : str),
      readlines fs p = Lines [l1; l2; l3] ->
      is_blank l1 = true ->
      is_blank l2 = false ->
      (forall n fname, validate_yolo_line l2 n fname = None) ->
      (forall n fname, validate_yolo_line l3 n fname <> None) ->
      exists e : LabelValidationError,
        validate_label_file fs p = [e] /\ line_num e = 3%Z
        /\ validate_yolo_line l3 3 (name p) = Some e)
  /\ (forall (line : str) (n : Z) (fname : str),
         is_blank line = true -> validate_yolo_line line n fname = None)
  /\ (forall (fs : filesystem) (p : Path) (before : list str) (line : str)
             (after : list str) (e : LabelValidationError),
         readlines fs p = Lines (before ++ line :: after) ->
         validate_yolo_line line (Z.of_nat (List.length before) + 1) (name p)
         = Some e ->
         In e (validate_label_file fs p)
         /\ line_num e = (Z.of_nat (List.length before) + 1)%Z).
Proof.
  split; [|split].
  - intros fs p l1 l2 l3 Hr H1 _ H2 H3.
    rewrite (validate_label_file_lines _ _ _ Hr). cbn [validate_lines].
    rewrite (validate_yolo_line_blank l1 _ _ H1), H2.
    destruct (validate_yolo_line l3 (1 + 1 + 1) (name p)) as [e|] eqn:He;
      [|exfalso; exact (H3 _ _ He)].
    exists e. split; [reflexivity|]. split; [|exact He].
    apply (validate_yolo_line_finding _ _ _ _ He).
  - intros line n fname Hb. apply validate_yolo_line_blank, Hb.
  - intros fs p before line after e Hr He. split.
    + rewrite (validate_label_file_lines _ _ _ Hr). apply validate_lines_In.
      exists (List.length before), line. split.
      * rewrite nth_error_app2, Nat.sub_diag by apply le_n. reflexivity.
      * rewrite Z.add_comm. exact He.
    + apply (validate_yolo_line_finding _ _ _ _ He).
Qed.

Lemma blank_valid_invalid_file_witness :
  exists e : LabelValidationError,
    validate_label_file (sample_fs (Bytes sample_bytes)) sample_file = [e]
    /\ line_num e = 3%Z
    /\ validate_yolo_line (u "0 0.5 0.5 0 0.2" ++ nl) 3 (name sample_file)
       = Some e.
Proof.
  apply (proj1 blank_valid_invalid_file
               (sample_fs (Bytes sample_bytes)) sample_file
               nl (u "0 0.5 0.5 0.2 0.2" ++ nl) (u "0 0.5 0.5 0 0.2" ++ nl)).
  - vm_compute; reflexivity.
  - vm_compute; reflexivity.
  - vm_compute; reflexivity.
  - intros n fname. vm_compute; reflexivity.
  - intros n fname. vm_compute; discriminate.
Defined.

(** C6: a file that cannot be read, or whose bytes are not UTF-8, gets
    exactly one finding, with line number 0 and an empty text, its reason
    being the encoding message in the second case and the message of the
    failure in the first; no line of the file is validated; and the scan
    goes on: the files after it are validated as the files before it. *)
Theorem unreadable_file_single_finding :
  forall (fs : filesystem) (p : Path),
    (exists msg, read_bytes fs p = OSError msg)
    \/ (exists data, read_bytes fs p = Bytes data /\ Utf8.decode data = None) ->
    exists e : LabelValidationError,
      validate_label_file fs p = [e]
      /\ filename e = name p /\ line_num e = 0%Z /\ line_content e = []
      /\ (forall data, read_bytes fs p = Bytes data ->
          reason e = u "File encoding error: not valid UTF-8")
      /\ (forall msg, read_bytes fs p = OSError msg ->
          reason e = u "File read error: " ++ msg)
      /\ (forall (before after : list Path) (st : scan_state),
             all_errors (fold_left (scan_file fs) (before ++ p :: after) st)
             = all_errors st ++ flat_map (validate_label_file fs) before
                 ++ [e] ++ flat_map (validate_label_file fs) after
             /\ total_files (fold_left (scan_file fs) (before ++ p :: after) st)
                = (total_files st + Z.of_nat (List.length before) + 1
                   + Z.of_nat (List.length after))%Z
             /\ total_lines (fold_left (scan_file fs) (before ++ p :: after) st)
                = (total_lines st + Z_sum (map (nonblank_lines fs) before)
                   + Z_sum (map (nonblank_lines fs) after))%Z).
Proof.
  intros fs p Hfail.
  assert (Hscan : forall e, validate_label_file fs p = [e] ->
            nonblank_lines fs p = 0%Z ->
            forall (before after : list Path) (st : scan_state),
             all_errors (fold_left (scan_file fs) (before ++ p :: after) st)
             = all_errors st ++ flat_map (validate_label_file fs) before
                 ++ [e] ++ flat_map (validate_label_file fs) after
             /\ total_files (fold_left (scan_file fs) (before ++ p :: after) st)
                = (total_files st + Z.of_nat (List.length before) + 1
                   + Z.of_nat (List.length after))%Z
             /\ total_lines (fold_left (scan_file fs) (before ++ p :: after) st)
                = (total_lines st + Z_sum (map (nonblank_lines fs) before)
                   + Z_sum (map (nonblank_lines fs) after))%Z).
  { intros e He H0 before after st.
    destruct (scan_files_state fs (before ++ p :: after) st) as (Ha & Hf & Hl & _).
    rewrite Ha, Hf, Hl. rewrite flat_map_app, map_app, length_app.
    cbn [flat_map map List.length]. rewrite He, H0.
    repeat split.
    - lia.
    - unfold Z_sum. rewrite fold_right_app. cbn [fold_right].
      assert (Hs : forall (l : list Z) (a : Z),
                 fold_right Z.add a l = (fold_right Z.add 0 l + a)%Z).
      { induction l as [|x l IH]; intros a; simpl; [lia|]. rewrite IH. lia. }
      rewrite (Hs (map (nonblank_lines fs) before)). lia. }
  destruct Hfail as [(msg & Hm)|(data & Hd & Hu)].
  - assert (Hr : readlines fs p = RaiseException msg)
      by (unfold readlines; rewrite Hm; reflexivity).
    assert (Hv : validate_label_file fs p
                 = [LabelValidationError_init (name p) 0 []
                      (u "File read error: " ++ msg)])
      by (unfold validate_label_file; rewrite Hr; reflexivity).
    assert (H0 : nonblank_lines fs p = 0%Z)
      by (unfold nonblank_lines; rewrite Hr; reflexivity).
    eexists. split; [exact Hv|].
    do 3 (split; [reflexivity|]).
    split; [intros data Hd; rewrite Hm in Hd; discriminate|].
    split; [|exact (Hscan _ Hv H0)].
    intros msg' Hm'. rewrite Hm in Hm'. injection Hm' as <-. reflexivity.
  - assert (Hr : readlines fs p = RaiseUnicodeDecodeError)
      by (unfold readlines; rewrite Hd, Hu; reflexivity).
    assert (Hv : validate_label_file fs p
                 = [LabelValidationError_init (name p) 0 []
                      (u "File encoding error: not valid UTF-8")])
      by (unfold validate_label_file; rewrite Hr; reflexivity).
    assert (H0 : nonblank_lines fs p = 0%Z)
      by (unfold nonblank_lines; rewrite Hr; reflexivity).
    eexists. split; [exact Hv|].
    do 3 (split; [reflexivity|]).
    split; [intros _ _; reflexivity|].
    split; [|exact (Hscan _ Hv H0)].
    intros msg' Hm'. rewrite Hd in Hm'. discriminate.
Qed.

Lemma unreadable_file_single_finding_witness :
  exists e : LabelValidationError,
    validate_label_file (sample_fs (Bytes [x30; xff; x0a])) sample_file = [e]
    /\ line_num e = 0%Z /\ line_content e = []
    /\ reason e = u "File encoding error: not valid UTF-8".
Proof.
  destruct (unreadable_file_single_finding
              (sample_fs (Bytes [x30; xff; x0a])) sample_file)
    as (e & He & _ & Hn & Hc & Hr & _).
  - right. exists [x30; xff; x0a]. split; vm_compute; reflexivity.
  - exists e. repeat split; try assumption. apply (Hr [x30; xff; x0a]).
    reflexivity.
Defined.

(** ** The scan and the exit status *)

(** The files one partition contributes. *)
Lemma scan_split_state (fs : filesystem) (root : Path) (st : scan_state)
    (split : str) :
  let files :=
    if path_exists fs (labels_dir root split)
    then sorted_glob_txt fs (labels_dir root split)
    else [] in
  all_errors (scan_split fs root st split)
  = all_errors st ++ flat_map (validate_label_file fs) files
  /\ total_files (scan_split fs root st split)
     = (total_files st + Z.of_nat (List.length files))%Z
  /\ total_lines (scan_split fs root st split)
     = (total_lines st + Z_sum (map (nonblank_lines fs) files))%Z.
Proof.
  unfold scan_split. fold (labels_dir root split).
  destruct (path_exists fs (labels_dir root split)); cbn [negb].
  - cbv zeta. destruct (sorted_glob_txt fs (labels_dir root split)) as [|f files].
    + cbn. rewrite app_nil_r, !Z.add_0_r. repeat split; reflexivity.
    + destruct (scan_files_state fs (f :: files)
                  (print (print st (nl ++ u "Scanning: "
                                      ++ path_str (labels_dir root split)))
                         (u "   Found "
                            ++ str_of_nat (List.length (f :: files))
                            ++ u " label file(s)")))
        as (Ha & Hf & Hl & _).
      rewrite Ha, Hf, Hl. repeat split; reflexivity.
  - cbn. rewrite app_nil_r, !Z.add_0_r. repeat split; reflexivity.
Qed.

(** C5: the exit status is 0 exactly when the dataset root exists and the
    scan made no finding, and 1 exactly when the root is missing or the scan
    made at least one finding. *)
Theorem main_exit_status :
  forall fs : filesystem,
    (snd (main fs) = 0%Z <->
     path_exists fs dataset_path = true
     /\ all_errors (scan_dataset fs dataset_path) = [])
    /\ (snd (main fs) = 1%Z <->
        path_exists fs dataset_path = false
        \/ all_errors (scan_dataset fs dataset_path) <> []).
Proof.
  intros fs. unfold main.
  destruct (path_exists fs dataset_path); cbn [negb snd].
  - destruct (all_errors (scan_dataset fs dataset_path)) as [|e errors].
    + split; split; try tauto; try discriminate.
      intros [H|H]; [discriminate | contradiction].
    + split; split; try discriminate.
      * intros [_ H]; discriminate.
      * intros _. right. discriminate.
      * reflexivity.
  - split; split; try discriminate.
    + intros [H _]; discriminate.
    + intros _; left; reflexivity.
    + reflexivity.
Qed.

(** C8: when the root exists and neither [labels/train] nor [labels/val]
    does, the scan ends with no file scanned, no line counted and no finding,
    having printed the two warnings, and the exit status is 0; and a
    partition directory that is missing adds a warning to the output and
    nothing to the findings or the counters. *)
Theorem scan_without_partitions :
  (forall fs : filesystem,
      path_exists fs dataset_path = true ->
      path_exists fs (labels_dir dataset_path (u "train")) = false ->
      path_exists fs (labels_dir dataset_path (u "val")) = false ->
      total_files (scan_dataset fs dataset_path) = 0%Z
      /\ total_lines (scan_dataset fs dataset_path) = 0%Z
      /\ all_errors (scan_dataset fs dataset_path) = []
      /\ printed (scan_dataset fs dataset_path)
         = [u "WARNING: Directory not found: "
              ++ path_str (labels_dir dataset_path (u "train"));
            u "WARNING: Directory not found: "
              ++ path_str (labels_dir dataset_path (u "val"))]
      /\ snd (main fs) = 0%Z)
  /\ (forall (fs : filesystem) (root : Path) (st : scan_state) (split : str),
         path_exists fs (labels_dir root split) = false ->
         all_errors (scan_split fs root st split) = all_errors st
         /\ total_files (scan_split fs root st split) = total_files st
         /\ total_lines (scan_split fs root st split) = total_lines st
         /\ printed (scan_split fs root st split)
            = printed st ++ [u "WARNING: Directory not found: "
                               ++ path_str (labels_dir root split)]).
Proof.
  assert (Hsplit : forall (fs : filesystem) (root : Path) (st : scan_state)
                          (split : str),
             path_exists fs (labels_dir root split) = false ->
             scan_split fs root st split
             = print st (u "WARNING: Directory not found: "
                           ++ path_str (labels_dir root split))).
  { intros fs root st split H. unfold scan_split.
    fold (labels_dir root split). rewrite H. reflexivity. }
  split.
  - intros fs Hroot Htrain Hval.
    assert (Hscan : scan_dataset fs dataset_path
                    = print (print {| all_errors := []; total_files := 0;
                                      total_lines := 0; printed := [] |}
                               (u "WARNING: Directory not found: "
                                  ++ path_str (labels_dir dataset_path (u "train"))))
                            (u "WARNING: Directory not found: "
                               ++ path_str (labels_dir dataset_path (u "val")))).
    { unfold scan_dataset. cbn [fold_left].
      rewrite (Hsplit _ _ _ _ Htrain), (Hsplit _ _ _ _ Hval). reflexivity. }
    unfold main. rewrite Hroot, Hscan. cbn [negb]. repeat split; reflexivity.
  - intros fs root st split H. rewrite (Hsplit _ _ _ _ H).
    repeat split; reflexivity.
Qed.

Lemma scan_without_partitions_witness :
  total_files (scan_dataset bare_root_fs dataset_path) = 0%Z
  /\ total_lines (scan_dataset bare_root_fs dataset_path) = 0%Z
  /\ all_errors (scan_dataset bare_root_fs dataset_path) = []
  /\ printed (scan_dataset bare_root_fs dataset_path)
     = [u "WARNING: Directory not found: "
          ++ path_str (labels_dir dataset_path (u "train"));
        u "WARNING: Directory not found: "
          ++ path_str (labels_dir dataset_path (u "val"))]
  /\ snd (main bare_root_fs) = 0%Z.
Proof.
  apply (proj1 scan_without_partitions bare_root_fs); vm_compute; reflexivity.
Defined.

(** C9: the line count of a scan is the sum, over the files of the
    partitions that exist, of the number of lines of the file that are not
    blank when the file can be read and decoded, and of 0 when it cannot;
    what the validation says of a line does not enter it. *)
Theorem total_lines_counts_nonblank_lines :
  forall (fs : filesystem) (root : Path),
    total_lines (scan_dataset fs root)
    = Z_sum (map (nonblank_lines fs) (scanned_files fs root)).
Proof.
  intros fs root.
  unfold scan_dataset, scanned_files. cbn [fold_left flat_map].
  destruct (scan_split_state fs root
              {| all_errors := []; total_files := 0; total_lines := 0;
                 printed := [] |} (u "train")) as (_ & _ & H1).
  destruct (scan_split_state fs root
              (scan_split fs root
                 {| all_errors := []; total_files := 0; total_lines := 0;
                    printed := [] |} (u "train")) (u "val")) as (_ & _ & H2).
  cbv zeta in H1, H2. rewrite H2, H1. cbn [total_lines].
  rewrite app_nil_r, map_app. unfold Z_sum. rewrite fold_right_app.
  assert (Hs : forall (l : list Z) (a : Z),
             fold_right Z.add a l = (fold_right Z.add 0 l + a)%Z).
  { induction l as [|x l IH]; intros a; simpl; [lia|]. rewrite IH. lia. }
  rewrite (Hs (map (nonblank_lines fs) _) (fold_right _ _ _)). lia.
Qed.

(** * Further properties of the script *)

(** ** Blanks around and between the tokens *)

Lemma lstrip_blank_app (pre s : str) :
  is_blank pre = true -> lstrip (pre ++ s) = lstrip s.
Proof.
  unfold is_blank. induction pre as [|c pre IH]; simpl; [reflexivity|].
  intros H. apply andb_true_iff in H as [Hc H]. rewrite Hc. apply IH, H.
Qed.

Lemma rstrip_app_blank (s post : str) :
  is_blank post = true -> rstrip (s ++ post) = rstrip s.
Proof.
  intros H. induction s as [|c s IH]; simpl.
  - apply rstrip_nil_iff, H.
  - rewrite IH. reflexivity.
Qed.

Lemma lstrip_app_nonblank (s post : str) :
  lstrip s <> [] -> lstrip (s ++ post) = lstrip s ++ post.
Proof.
  induction s as [|c s IH]; simpl; [intros H; contradiction|].
  destruct (isspace c); [exact IH | reflexivity].
Qed.

Lemma strip_blank_around (pre line post : str) :
  is_blank pre = true -> is_blank post = true ->
  strip (pre ++ line ++ post) = strip line.
Proof.
  intros Hpre Hpost. unfold strip. rewrite (lstrip_blank_app _ _ Hpre).
  destruct (lstrip line) as [|c t] eqn:Hl.
  - apply lstrip_nil_iff in Hl.
    assert (Hb : is_blank (line ++ post) = true)
      by (unfold is_blank in *; rewrite forallb_app, Hl, Hpost; reflexivity).
    apply lstrip_nil_iff in Hb. rewrite Hb. reflexivity.
  - rewrite lstrip_app_nonblank by (rewrite Hl; discriminate).
    rewrite Hl. apply rstrip_app_blank, Hpost.
Qed.

Lemma split_from_blank (cur s : str) :
  is_blank s = true ->
  split_from cur s = match cur with [] => [] | _ :: _ => [rev cur] end.
Proof.
  unfold is_blank. revert cur. induction s as [|c s IH]; intros cur H; simpl.
  - reflexivity.
  - simpl in H. apply andb_true_iff in H as [Hc H]. rewrite Hc.
    rewrite (IH [] H). destruct cur; reflexivity.
Qed.

Lemma split_from_cons (cur : str) (c : char) (s : str) :
  split_from cur (c :: s)
  = if isspace c
    then match cur with
         | [] => split_from [] s
         | _ :: _ => rev cur :: split_from [] s
         end
    else split_from (c :: cur) s.
Proof. reflexivity. Qed.

Lemma split_from_rstrip (s : str) :
  forall cur : str, split_from cur (rstrip s) = split_from cur s.
Proof.
  induction s as [|c s IH]; intros cur; [reflexivity|].
  rewrite (split_from_cons cur c s). simpl rstrip.
  destruct (rstrip s) as [|d t] eqn:Hr.
  - assert (Hb : is_blank s = true) by (apply rstrip_nil_iff, Hr).
    destruct (isspace c) eqn:Hc.
    + rewrite (split_from_blank [] s Hb). destruct cur; reflexivity.
    + rewrite (split_from_blank (c :: cur) s Hb), split_from_cons, Hc.
      reflexivity.
  - rewrite (split_from_cons cur c (d :: t)), !IH. reflexivity.
Qed.

Lemma split_lstrip (s : str) : split (lstrip s) = split s.
Proof.
  unfold split. induction s as [|c s IH]; simpl; [reflexivity|].
  destruct (isspace c) eqn:Hc; [exact IH|].
  simpl. rewrite Hc. reflexivity.
Qed.

Lemma split_strip (s : str) : split (strip s) = split s.
Proof.
  unfold strip, split. rewrite split_from_rstrip. apply split_lstrip.
Qed.

Lemma split_from_nil (s : str) :
  forall cur : str, split_from cur s = [] -> cur = [] /\ is_blank s = true.
Proof.
  unfold is_blank. induction s as [|c s IH]; intros cur; simpl.
  - destruct cur; [split; reflexivity | discriminate].
  - destruct (isspace c).
    + destruct cur; [|discriminate]. intros H. apply IH in H as [_ H].
      split; [reflexivity | exact H].
    + intros H. apply IH in H as [H _]. discriminate.
Qed.

Lemma split_nil_iff (s : str) : split s = [] <-> is_blank s = true.
Proof.
  split.
  - intros H. apply (split_from_nil s [] H).
  - intros H. unfold split. rewrite (split_from_blank [] s H). reflexivity.
Qed.

(** X1: blanks before and after a line do not change what the line
    validator returns for it. *)
Theorem validate_yolo_line_ignores_outer_blanks :
  forall (pre line post : str) (n : Z) (fname : str),
    is_blank pre = true -> is_blank post = true ->
    validate_yolo_line (pre ++ line ++ post) n fname
    = validate_yolo_line line n fname.
Proof.
  intros pre line post n fname Hpre Hpost.
  unfold validate_yolo_line.
  rewrite (strip_blank_around pre line post Hpre Hpost). reflexivity.
Qed.

Lemma validate_yolo_line_ignores_outer_blanks_witness :
  validate_yolo_line (u "  " ++ u "0 0.5 0.5 0 0.2" ++ nl) 3 (u "a.txt")
  = validate_yolo_line (u "0 0.5 0.5 0 0.2") 3 (u "a.txt").
Proof.
  apply validate_yolo_line_ignores_outer_blanks; vm_compute; reflexivity.
Defined.

(** X2: two lines with the same tokens get the same verdict and, when
    rejected, the same reason, however the tokens are spaced. *)
Theorem validate_yolo_line_reason_of_tokens :
  forall (line1 line2 : str) (n1 n2 : Z) (fname1 fname2 : str),
    split line1 = split line2 ->
    match validate_yolo_line line1 n1 fname1,
          validate_yolo_line line2 n2 fname2 with
    | None, None => True
    | Some e1, Some e2 => reason e1 = reason e2
    | _, _ => False
    end.
Proof.
  intros line1 line2 n1 n2 fname1 fname2 Hsplit.
  rewrite !validate_yolo_line_checks, !split_strip, <- Hsplit.
  destruct (strip line1) as [|c1 r1] eqn:H1, (strip line2) as [|c2 r2] eqn:H2.
  - exact I.
  - apply strip_nil_iff, split_nil_iff in H1. rewrite Hsplit in H1.
    apply split_nil_iff, strip_nil_iff in H1. rewrite H1 in H2. discriminate.
  - apply strip_nil_iff, split_nil_iff in H2. rewrite <- Hsplit in H2.
    apply split_nil_iff, strip_nil_iff in H2. rewrite H2 in H1. discriminate.
  - destruct (first_violation checks (split line1)); simpl;
      [reflexivity | exact I].
Qed.

Lemma validate_yolo_line_reason_of_tokens_witness :
  match validate_yolo_line (u "0  0.5 0.5   0 0.2") 1 (u "a.txt"),
        validate_yolo_line (u " 0 0.5 0.5 0 0.2 ") 9 (u "b.txt") with
  | None, None => True
  | Some e1, Some e2 => reason e1 = reason e2
  | _, _ => False
  end.
Proof.
  apply validate_yolo_line_reason_of_tokens. vm_compute; reflexivity.
Defined.

(** ** What an accepted line guarantees *)

Lemma SFcompare_not_nan (x y : float) :
  isnan x = false -> isnan y = false -> SFcompare x y <> None.
Proof.
  destruct x, y; simpl; intros Hx Hy; try discriminate.
Qed.

Lemma float_le_false_gt (x y : float) :
  isnan x = false -> isnan y = false ->
  float_le x y = false -> float_gt x y = true.
Proof.
  intros Hx Hy. unfold float_le, float_gt, SFleb, SFltb.
  rewrite (SFcompare_swap x y).
  pose proof (SFcompare_not_nan x y Hx Hy) as Hc.
  destruct (SFcompare x y) as [[]|]; simpl; congruence.
Qed.

Lemma float_lt_false_le (x y : float) :
  isnan x = false -> isnan y = false ->
  float_lt x y = false -> float_le y x = true.
Proof.
  intros Hx Hy. unfold float_le, float_lt, SFleb, SFltb.
  rewrite (SFcompare_swap x y).
  pose proof (SFcompare_not_nan x y Hx Hy) as Hc.
  destruct (SFcompare x y) as [[]|]; simpl; congruence.
Qed.

(** X3: a line that is not blank and gets no finding has exactly five
    tokens; the first reads as an integer that is not negative, the other
    four as floats that are neither NaN nor infinite; width and height are
    positive, both centre coordinates lie in [0, 1], and none of the four
    edge tests of the script fires. *)
Theorem accepted_line_is_valid :
  forall (line : str) (n : Z) (fname : str),
    is_blank line = false ->
    validate_yolo_line line n fname = None ->
    exists (t1 t2 t3 t4 t5 : str) (class_id : Z)
           (center_x center_y width height : float),
      split line = [t1; t2; t3; t4; t5]
      /\ py_int t1 = Some class_id /\ (0 <= class_id)%Z
      /\ py_float t2 = Ok center_x /\ py_float t3 = Ok center_y
      /\ py_float t4 = Ok width /\ py_float t5 = Ok height
      /\ is_finite center_x = true /\ is_finite center_y = true
      /\ is_finite width = true /\ is_finite height = true
      /\ float_gt width (float_of_Z 0) = true
      /\ float_gt height (float_of_Z 0) = true
      /\ in_unit_interval center_x = true
      /\ in_unit_interval center_y = true
      /\ float_lt (edge_min center_x width) (float_of_Z 0) = false
      /\ float_gt (edge_max center_x width) (float_of_Z 1) = false
      /\ float_lt (edge_min center_y height) (float_of_Z 0) = false
      /\ float_gt (edge_max center_y height) (float_of_Z 1) = false.
Proof.
  intros line n fname Hblank. rewrite <- (split_strip line).
  unfold validate_yolo_line.
  destruct (strip line) as [|c0 rest0] eqn:Hs.
  { apply strip_nil_iff in Hs. congruence. }
  cbv beta iota zeta.
  destruct (split (c0 :: rest0))
    as [|t1 [|t2 [|t3 [|t4 [|t5 [|t6 parts]]]]]]; try discriminate.
  destruct (py_int t1) as [class_id|] eqn:Hint; [|discriminate].
  destruct (class_id <? 0)%Z eqn:Hsign; [discriminate|].
  destruct (py_float t2) as [center_x|] eqn:Hx; [|discriminate].
  destruct (py_float t3) as [center_y|] eqn:Hy; [|discriminate].
  destruct (py_float t4) as [width|] eqn:Hw; [|discriminate].
  destruct (py_float t5) as [height|] eqn:Hh; [|discriminate].
  cbv [bind check_nan_inf].
  destruct (isnan center_x) eqn:Nx; [discriminate|].
  destruct (isinf center_x) eqn:Ix; [discriminate|].
  destruct (isnan center_y) eqn:Ny; [discriminate|].
  destruct (isinf center_y) eqn:Iy; [discriminate|].
  destruct (isnan width) eqn:Nw; [discriminate|].
  destruct (isinf width) eqn:Iw; [discriminate|].
  destruct (isnan height) eqn:Nh; [discriminate|].
  destruct (isinf height) eqn:Ih; [discriminate|].
  destruct (float_le width (float_of_Z 0)) eqn:Pw; [discriminate|].
  destruct (float_le height (float_of_Z 0)) eqn:Ph; [discriminate|].
  destruct (float_lt center_x (float_of_Z 0)) eqn:Cx0; [discriminate|].
  destruct (float_gt center_x (float_of_Z 1)) eqn:Cx1; [discriminate|].
  destruct (float_lt center_y (float_of_Z 0)) eqn:Cy0; [discriminate|].
  destruct (float_gt center_y (float_of_Z 1)) eqn:Cy1; [discriminate|].
  cbn [orb].
  fold (edge_min center_x width). fold (edge_max center_x width).
  fold (edge_min center_y height). fold (edge_max center_y height).
  destruct (float_lt (edge_min center_x width) (float_of_Z 0)) eqn:Xmin;
    [discriminate|].
  destruct (float_gt (edge_max center_x width) (float_of_Z 1)) eqn:Xmax;
    [discriminate|].
  destruct (float_lt (edge_min center_y height) (float_of_Z 0)) eqn:Ymin;
    [discriminate|].
  destruct (float_gt (edge_max center_y height) (float_of_Z 1)) eqn:Ymax;
    [discriminate|].
  intros _.
  exists t1, t2, t3, t4, t5, class_id, center_x, center_y, width, height.
  assert (Z0nan : isnan (float_of_Z 0) = false) by reflexivity.
  assert (Z1nan : isnan (float_of_Z 1) = false) by reflexivity.
  unfold is_finite, in_unit_interval.
  rewrite Nx, Ix, Ny, Iy, Nw, Iw, Nh, Ih.
  rewrite (float_le_false_gt _ _ Nw Z0nan Pw), (float_le_false_gt _ _ Nh Z0nan Ph).
  rewrite (float_lt_false_le _ _ Nx Z0nan Cx0), (float_lt_false_le _ _ Ny Z0nan Cy0).
  unfold float_gt in Cx1, Cy1.
  rewrite (float_lt_false_le _ _ Z1nan Nx Cx1), (float_lt_false_le _ _ Z1nan Ny Cy1).
  repeat split; try reflexivity; try assumption.
  apply Z.ltb_ge, Hsign.
Qed.

Lemma accepted_line_is_valid_witness :
  exists t1 t2 t3 t4 t5 : str,
    split (u "0 0.5 0.5 0.2 0.2") = [t1; t2; t3; t4; t5].
Proof.
  destruct (accepted_line_is_valid (u "0 0.5 0.5 0.2 0.2") 1 (u "a.txt"))
    as (t1 & t2 & t3 & t4 & t5 & _ & _ & _ & _ & _ & H & _).
  - vm_compute; reflexivity.
  - vm_compute; reflexivity.
  - exists t1, t2, t3, t4, t5. exact H.
Defined.

(** ** The stored text of a finding *)

Lemma last_default (l : str) (x d d' : char) :
  last (x :: l) d = last (x :: l) d'.
Proof.
  revert x. induction l as [|y l IH]; intros x; [reflexivity|].
  change (last (y :: l) d = last (y :: l) d'). apply IH.
Qed.

Lemma rstrip_last (s : str) (c : char) (t : str) :
  rstrip s = c :: t -> isspace (last (c :: t) c) = false.
Proof.
  revert c t. induction s as [|a s IH]; intros c t; simpl; [discriminate|].
  destruct (rstrip s) as [|d r] eqn:Hr.
  - destruct (isspace a) eqn:Ha; [discriminate|].
    intros H; injection H as <- <-. exact Ha.
  - intros H; injection H as <- <-.
    pose proof (IH d r eq_refl) as Hl.
    change (last (a :: d :: r) a) with (last (d :: r) a).
    rewrite (last_default r d a d). exact Hl.
Qed.

(** X4: the text a finding stores is stripped: stripping it again changes
    nothing, and when it is not empty its first and its last character are
    not blanks.  The file name, the line number and the reason are stored as
    given. *)
Theorem finding_stores_stripped_text :
  forall (fname : str) (n : Z) (text why : str),
    filename (LabelValidationError_init fname n text why) = fname
    /\ line_num (LabelValidationError_init fname n text why) = n
    /\ reason (LabelValidationError_init fname n text why) = why
    /\ line_content (LabelValidationError_init fname n text why) = strip text
    /\ strip (line_content (LabelValidationError_init fname n text why))
       = line_content (LabelValidationError_init fname n text why)
    /\ (forall (c : char) (t : str),
           line_content (LabelValidationError_init fname n text why) = c :: t ->
           isspace c = false /\ isspace (last (c :: t) c) = false).
Proof.
  intros fname n text why. cbn [filename line_num reason line_content
                                LabelValidationError_init].
  repeat split; try reflexivity.
  - apply strip_idempotent.
  - apply (strip_head _ _ _ H).
  - apply (rstrip_last (lstrip text)). exact H.
Qed.

Lemma finding_stores_stripped_text_witness :
  isspace 0x78%N = false /\ isspace (last (u "x y") 0x78%N) = false.
Proof.
  apply (proj2 (proj2 (proj2 (proj2 (proj2
           (finding_stores_stripped_text (u "a.txt") 1 (u " x y  ") (u "why"))))))
         0x78%N (u " y")).
  vm_compute; reflexivity.
Defined.

(** ** The findings of a file *)

(** X5: validating a list of lines that is one list after another gives the
    findings of the first list, at its line numbers, followed by those of the
    second, numbered on from where the first ends. *)
Theorem validate_lines_concatenation :
  forall (fname : str) (lines1 lines2 : list str) (n : Z)
         (errors : list LabelValidationError),
    validate_lines fname n (lines1 ++ lines2) errors
    = errors ++ validate_lines fname n lines1 []
        ++ validate_lines fname (n + Z.of_nat (List.length lines1)) lines2 [].
Proof.
  intros fname lines1. induction lines1 as [|l lines1 IH]; intros lines2 n errors.
  - cbn [app validate_lines List.length Z.of_nat]. rewrite Z.add_0_r.
    apply validate_lines_app.
  - cbn [app validate_lines]. rewrite IH.
    replace (n + 1 + Z.of_nat (List.length lines1))%Z
      with (n + Z.of_nat (List.length (l :: lines1)))%Z
      by (cbn [List.length]; lia).
    destruct (validate_yolo_line l n fname) as [e|].
    + rewrite (validate_lines_app fname lines1 (n + 1) [e]).
      rewrite <- !app_assoc. reflexivity.
    + reflexivity.
Qed.

Lemma validate_lines_sorted (fname : str) (lines : list str) :
  forall n : Z,
    StronglySorted Z.lt (map line_num (validate_lines fname n lines []))
    /\ Forall (fun e => (n <= line_num e)%Z /\ filename e = fname)
              (validate_lines fname n lines [])
    /\ (List.length (validate_lines fname n lines [])
        <= List.length (filter (fun l => negb (is_blank l)) lines))%nat.
Proof.
  induction lines as [|l lines IH]; intros n.
  - cbn. repeat split; [constructor | constructor | apply le_n].
  - cbn [validate_lines]. rewrite validate_lines_app.
    destruct (IH (n + 1)%Z) as (Hs & Hf & Hl).
    assert (Hf' : Forall (fun e => (n + 1 <= line_num e)%Z)
                         (validate_lines fname (n + 1) lines [])).
    { eapply Forall_impl; [|exact Hf]. intros e [H _]. exact H. }
    destruct (validate_yolo_line l n fname) as [e|] eqn:He.
    + destruct (validate_yolo_line_finding _ _ _ _ He) as (Hn & Hm & _ & _ & Hb).
      cbn [app map filter]. rewrite Hb. cbn [negb List.length].
      repeat split.
      * constructor; [exact Hs|]. rewrite Forall_map.
        eapply Forall_impl; [|exact Hf']. intros e' H. cbn beta in H. lia.
      * constructor; [split; [lia | exact Hn]|].
        eapply Forall_impl; [|exact Hf]. intros e' [H1 H2]. split; [lia | exact H2].
      * apply le_n_S, Hl.
    + cbn [app map filter]. repeat split.
      * exact Hs.
      * eapply Forall_impl; [|exact Hf]. intros e' [H1 H2]. split; [lia | exact H2].
      * destruct (negb (is_blank l)); cbn [List.length]; lia.
Qed.

(** X6: the findings of a file all carry the name of the file, and their
    line numbers increase strictly along the list: the findings come in the
    order of the lines, at most one for a line; for a file that can be read
    each line number lies between 1 and the number of lines. *)
Theorem file_findings_in_line_order :
  forall (fs : filesystem) (p : Path),
    StronglySorted Z.lt (map line_num (validate_label_file fs p))
    /\ Forall (fun e => filename e = name p) (validate_label_file fs p)
    /\ (forall lines : list str,
           readlines fs p = Lines lines ->
           Forall (fun e => (1 <= line_num e <= Z.of_nat (List.length lines))%Z)
                  (validate_label_file fs p)).
Proof.
  intros fs p. split; [|split].
  - unfold validate_label_file.
    destruct (readlines fs p) as [|msg|lines];
      [cbn; repeat constructor | cbn; repeat constructor |].
    destruct lines as [|l lines]; [constructor|].
    apply (validate_lines_sorted (name p) (l :: lines) 1).
  - unfold validate_label_file.
    destruct (readlines fs p) as [|msg|lines];
      [cbn; repeat constructor | cbn; repeat constructor |].
    destruct lines as [|l lines]; [constructor|].
    destruct (validate_lines_sorted (name p) (l :: lines) 1) as (_ & Hf & _).
    eapply Forall_impl; [|exact Hf]. intros e [_ H]. exact H.
  - intros lines Hr. rewrite (validate_label_file_lines _ _ _ Hr).
    apply Forall_forall. intros e He.
    apply validate_lines_In in He as (i & line & Hi & He).
    destruct (validate_yolo_line_finding _ _ _ _ He) as (_ & -> & _).
    assert (i < List.length lines)%nat
      by (apply nth_error_Some; rewrite Hi; discriminate).
    lia.
Qed.

Lemma file_findings_in_line_order_witness :
  Forall (fun e => (1 <= line_num e <= 3)%Z)
         (validate_label_file (sample_fs (Bytes sample_bytes)) sample_file).
Proof.
  apply (proj2 (proj2 (file_findings_in_line_order
                         (sample_fs (Bytes sample_bytes)) sample_file))
               [nl; u "0 0.5 0.5 0.2 0.2" ++ nl; u "0 0.5 0.5 0 0.2" ++ nl]).
  vm_compute; reflexivity.
Defined.

(** X7: a file gets at most as many findings as it has lines that are not
    blank when it can be read, and exactly one finding when it cannot. *)
Theorem file_findings_count :
  forall (fs : filesystem) (p : Path),
    (unreadable fs p = false ->
     (Z.of_nat (List.length (validate_label_file fs p))
      <= nonblank_lines fs p)%Z)
    /\ (unreadable fs p = true ->
        List.length (validate_label_file fs p) = 1%nat
        /\ nonblank_lines fs p = 0%Z).
Proof.
  intros fs p. unfold unreadable, validate_label_file, nonblank_lines.
  destruct (readlines fs p) as [|msg|lines].
  - split; [discriminate | intros _; split; reflexivity].
  - split; [discriminate | intros _; split; reflexivity].
  - split; [intros _ | discriminate].
    destruct (validate_lines_sorted (name p) lines 1) as (_ & _ & Hl).
    destruct lines as [|l lines]; [cbn; lia|]. lia.
Qed.

Lemma file_findings_count_witness :
  (Z.of_nat (List.length (validate_label_file (sample_fs (Bytes sample_bytes))
                                              sample_file))
   <= nonblank_lines (sample_fs (Bytes sample_bytes)) sample_file)%Z
  /\ List.length (validate_label_file (sample_fs (Bytes [xff])) sample_file)
     = 1%nat.
Proof.
  split.
  - apply (proj1 (file_findings_count (sample_fs (Bytes sample_bytes))
                                      sample_file)).
    vm_compute; reflexivity.
  - apply (proj2 (file_findings_count (sample_fs (Bytes [xff])) sample_file)).
    vm_compute; reflexivity.
Defined.

Lemma validate_yolo_line_none_anywhere (line : str) (n n' : Z)
    (fname fname' : str) :
  validate_yolo_line line n fname = None ->
  validate_yolo_line line n' fname' = None.
Proof.
  rewrite !validate_yolo_line_checks.
  destruct (strip line); [reflexivity|].
  destruct (first_violation checks _); [discriminate | reflexivity].
Qed.

(** X8: a file that can be read gets no finding exactly when each of its
    lines is accepted by the line validator (blank lines are); in
    particular an empty file gets none. *)
Theorem file_without_findings :
  (forall (fs : filesystem) (p : Path) (lines : list str),
      readlines fs p = Lines lines ->
      (validate_label_file fs p = [] <->
       forall (line : str) (n : Z) (fname : str),
         In line lines -> validate_yolo_line line n fname = None))
  /\ (forall (fs : filesystem) (p : Path),
         read_bytes fs p = Bytes [] -> validate_label_file fs p = []).
Proof.
  split.
  - intros fs p lines Hr. rewrite (validate_label_file_lines _ _ _ Hr). split.
    + intros Hnil line n fname Hin.
      destruct (In_nth_error _ _ Hin) as [i Hi].
      destruct (validate_yolo_line line (1 + Z.of_nat i) (name p)) as [e|] eqn:He.
      * assert (Hin' : In e (validate_lines (name p) 1 lines []))
          by (apply validate_lines_In; exists i, line; split; assumption).
        rewrite Hnil in Hin'. destruct Hin'.
      * apply (validate_yolo_line_none_anywhere _ _ _ _ _ He).
    + intros Hall.
      destruct (validate_lines (name p) 1 lines []) as [|e r] eqn:Hv;
        [reflexivity|].
      assert (Hin : In e (validate_lines (name p) 1 lines []))
        by (rewrite Hv; left; reflexivity).
      apply validate_lines_In in Hin as (i & line & Hi & He).
      rewrite (Hall line _ _ (nth_error_In _ _ Hi)) in He. discriminate.
  - intros fs p Hb. unfold validate_label_file, readlines. rewrite Hb.
    reflexivity.
Qed.

Lemma file_without_findings_witness :
  validate_label_file (sample_fs (Bytes [])) sample_file = []
  /\ validate_label_file
       (sample_fs (Bytes (list_byte_of_string "0 0.5 0.5 0.2 0.2")))
       sample_file = [].
Proof.
  split.
  - apply (proj2 file_without_findings). reflexivity.
  - apply (proj1 file_without_findings _ _ [u "0 0.5 0.5 0.2 0.2"]).
    + vm_compute; reflexivity.
    + intros line n fname [<-|[]]. vm_compute; reflexivity.
Defined.

(** ** The scan as a whole *)

Lemma scan_split_printed (fs : filesystem) (root : Path) (st : scan_state)
    (split : str) :
  printed (scan_split fs root st split)
  = printed st ++ split_report fs root split.
Proof.
  unfold scan_split, split_report. fold (labels_dir root split).
  destruct (path_exists fs (labels_dir root split)); cbn [negb]; [|reflexivity].
  cbv zeta.
  destruct (sorted_glob_txt fs (labels_dir root split)) as [|f files].
  - cbn [print printed]. rewrite <- app_assoc. reflexivity.
  - destruct (scan_files_state fs (f :: files)
                (print (print st (nl ++ u "Scanning: "
                                    ++ path_str (labels_dir root split)))
                       (u "   Found "
                          ++ str_of_nat (List.length (f :: files))
                          ++ u " label file(s)")))
      as (_ & _ & _ & Hp).
    rewrite Hp. cbn [print printed]. rewrite <- app_assoc. reflexivity.
Qed.

Lemma Z_sum_app (l1 l2 : list Z) : Z_sum (l1 ++ l2) = (Z_sum l1 + Z_sum l2)%Z.
Proof.
  unfold Z_sum. induction l1 as [|x l1 IH]; simpl; [reflexivity|].
  rewrite IH. lia.
Qed.

Lemma scan_dataset_state (fs : filesystem) (root : Path) :
  all_errors (scan_dataset fs root)
  = flat_map (validate_label_file fs) (scanned_files fs root)
  /\ total_files (scan_dataset fs root)
     = Z.of_nat (List.length (scanned_files fs root))
  /\ total_lines (scan_dataset fs root)
     = Z_sum (map (nonblank_lines fs) (scanned_files fs root))
  /\ printed (scan_dataset fs root)
     = split_report fs root (u "train") ++ split_report fs root (u "val").
Proof.
  unfold scan_dataset, scanned_files. cbn [fold_left flat_map].
  set (st0 := {| all_errors := []; total_files := 0; total_lines := 0;
                 printed := [] |}).
  destruct (scan_split_state fs root st0 (u "train")) as (A1 & F1 & L1).
  destruct (scan_split_state fs root (scan_split fs root st0 (u "train"))
              (u "val")) as (A2 & F2 & L2).
  cbv zeta in A1, F1, L1, A2, F2, L2.
  rewrite !scan_split_printed, A2, F2, L2, A1, F1, L1.
  cbn [all_errors total_files total_lines printed st0 app].
  rewrite !app_nil_r, flat_map_app, length_app, map_app, Z_sum_app.
  repeat split; lia.
Qed.

(** X9: the findings of a scan are those of the files of [labels/train] in
    listing order followed by those of the files of [labels/val], each file's
    findings together; and the file count is the number of files listed,
    readable or not. *)
Theorem scan_findings_in_file_order :
  forall (fs : filesystem) (root : Path),
    all_errors (scan_dataset fs root)
    = flat_map (validate_label_file fs) (scanned_files fs root)
    /\ total_files (scan_dataset fs root)
       = Z.of_nat (List.length (scanned_files fs root)).
Proof.
  intros fs root. destruct (scan_dataset_state fs root) as (A & F & _).
  split; assumption.
Qed.

Lemma findings_count_bound (fs : filesystem) (files : list Path) :
  (Z.of_nat (List.length (flat_map (validate_label_file fs) files))
   <= Z_sum (map (nonblank_lines fs) files)
      + Z.of_nat (List.length (filter (unreadable fs) files)))%Z
  /\ (0 <= Z_sum (map (nonblank_lines fs) files))%Z.
Proof.
  induction files as [|p files [IH1 IH2]]; [cbn; lia|].
  cbn [flat_map map filter]. rewrite length_app. unfold Z_sum in *.
  cbn [fold_right].
  assert (H : (Z.of_nat (List.length (validate_label_file fs p))
               <= nonblank_lines fs p
                  + (if unreadable fs p then 1 else 0))%Z
              /\ (0 <= nonblank_lines fs p)%Z).
  { unfold unreadable, validate_label_file, nonblank_lines.
    destruct (readlines fs p) as [|msg|lines]; [cbn; lia | cbn; lia |].
    destruct (validate_lines_sorted (name p) lines 1) as (_ & _ & Hl).
    destruct lines as [|l lines]; [cbn; lia | lia]. }
  destruct (unreadable fs p); cbn [List.length]; lia.
Qed.

(** X10: a scan never reports more findings than it counted lines plus the
    files it could not read; so the number of findings is at most the line
    count plus the file count. *)
Theorem scan_findings_bounded_by_lines_and_files :
  forall (fs : filesystem) (root : Path),
    (Z.of_nat (List.length (all_errors (scan_dataset fs root)))
     <= total_lines (scan_dataset fs root)
        + Z.of_nat (List.length (filter (unreadable fs)
                                        (scanned_files fs root))))%Z
    /\ (Z.of_nat (List.length (all_errors (scan_dataset fs root)))
        <= total_lines (scan_dataset fs root)
           + total_files (scan_dataset fs root))%Z
    /\ (0 <= total_lines (scan_dataset fs root))%Z.
Proof.
  intros fs root. destruct (scan_dataset_state fs root) as (A & F & L & _).
  rewrite A, F, L.
  destruct (findings_count_bound fs (scanned_files fs root)) as [H1 H2].
  pose proof (filter_length_le (unreadable fs) (scanned_files fs root)) as H3.
  repeat split; lia.
Qed.



Lemma scan_files_same_bytes (fs1 fs2 : filesystem) (files : list Path) :
  (forall p, In p files -> read_bytes fs1 p = read_bytes fs2 p) ->
  forall st, fold_left (scan_file fs1) files st
             = fold_left (scan_file fs2) files st.
Proof.
  induction files as [|p files IH]; intros H st; [reflexivity|].
  cbn [fold_left].
  assert (Hp : scan_file fs1 st p = scan_file fs2 st p).
  { unfold scan_file, validate_label_file, count_lines, readlines.
    rewrite (H p (or_introl eq_refl)). reflexivity. }
  rewrite Hp. apply IH. intros q Hq. apply H. right. exact Hq.
Qed.

(** X12: a scan looks at nothing but the two partition directories, their
    listings and the files listed: on two file systems that agree on these,
    it ends in the same state, output included. *)
Theorem scan_reads_only_label_files :
  forall (fs1 fs2 : filesystem) (root : Path),
    same_labels fs1 fs2 root ->
    scan_dataset fs1 root = scan_dataset fs2 root.
Proof.
  intros fs1 fs2 root H.
  assert (Hsplit : forall split st, In split [u "train"; u "val"] ->
            scan_split fs1 root st split = scan_split fs2 root st split).
  { intros split st Hin. destruct (H split Hin) as (He & Hg & Hr).
    unfold scan_split. fold (labels_dir root split). rewrite <- He, <- Hg.
    destruct (path_exists fs1 (labels_dir root split)); cbn [negb];
      [|reflexivity].
    cbv zeta.
    destruct (sorted_glob_txt fs1 (labels_dir root split)) as [|f files] eqn:Hf;
      [reflexivity|].
    apply scan_files_same_bytes. apply Hr. reflexivity. }
  unfold scan_dataset. cbn [fold_left].
  rewrite (Hsplit (u "train")) by (left; reflexivity).
  apply Hsplit. right; left; reflexivity.
Qed.

Lemma scan_reads_only_label_files_witness :
  scan_dataset (sample_fs (Bytes sample_bytes)) dataset_path
  = scan_dataset (sample_fs_with_notes (Bytes sample_bytes)) dataset_path.
Proof.
  apply scan_reads_only_label_files.
  intros sp [<-|[<-|[]]]; (split; [|split]); try (vm_compute; reflexivity);
    intros _ p [<-|[]]; vm_compute; reflexivity.
Defined.

(** ** The report of [main] *)

Lemma str_eqb_eq (a b : str) : str_eqb a b = true <-> a = b.
Proof.
  revert b. induction a as [|x a IH]; intros [|y b]; simpl;
    try (split; [discriminate | discriminate]); [tauto|].
  rewrite andb_true_iff, N.eqb_eq, IH. split.
  - intros [-> ->]. reflexivity.
  - intros H. injection H as -> ->. split; reflexivity.
Qed.

Lemma str_eqb_refl (a : str) : str_eqb a a = true.
Proof. apply str_eqb_eq. reflexivity. Qed.

Lemma str_eqb_neq (a b : str) : str_eqb a b = false <-> a <> b.
Proof.
  destruct (str_eqb a b) eqn:H.
  - apply str_eqb_eq in H. split; [discriminate | contradiction].
  - split; [|reflexivity]. intros _ Heq. apply str_eqb_eq in Heq. congruence.
Qed.

Lemma str_ltb_asym (a b : str) : str_ltb a b = true -> str_ltb b a = false.
Proof.
  revert b. induction a as [|x a IH]; intros [|y b]; simpl; try reflexivity;
    try discriminate.
  intros H. apply orb_true_iff in H as [H|H].
  - apply N.ltb_lt in H.
    replace (y <? x)%N with false by (symmetry; apply N.ltb_ge; lia).
    replace (y =? x)%N with false by (symmetry; apply N.eqb_neq; lia).
    reflexivity.
  - apply andb_true_iff in H as [Hxy H]. apply N.eqb_eq in Hxy. subst y.
    rewrite N.ltb_irrefl, N.eqb_refl. simpl. apply IH, H.
Qed.

(** *** [errors_by_file] *)

Lemma dict_append_keys_present (d : list (str * list LabelValidationError))
    (key : str) (e : LabelValidationError) :
  In key (map fst d) -> map fst (dict_append d key e) = map fst d.
Proof.
  induction d as [|[k l] d IH]; simpl; [contradiction|].
  destruct (str_eqb k key) eqn:Hk; [reflexivity|].
  intros [H|H].
  - apply str_eqb_neq in Hk. contradiction.
  - simpl. rewrite (IH H). reflexivity.
Qed.

Lemma dict_append_keys_absent (d : list (str * list LabelValidationError))
    (key : str) (e : LabelValidationError) :
  ~ In key (map fst d) ->
  dict_append d key e = d ++ [(key, [e])].
Proof.
  induction d as [|[k l] d IH]; simpl; [reflexivity|].
  intros H. destruct (str_eqb k key) eqn:Hk.
  - apply str_eqb_eq in Hk. exfalso. apply H. left. exact Hk.
  - rewrite IH; [reflexivity|]. intros Hin. apply H. right. exact Hin.
Qed.

Lemma dict_append_In (d : list (str * list LabelValidationError))
    (key : str) (e : LabelValidationError) :
  NoDup (map fst d) ->
  forall (k : str) (l : list LabelValidationError),
    In (k, l) (dict_append d key e) <->
    (k <> key /\ In (k, l) d)
    \/ (k = key /\ exists l0, In (key, l0) d /\ l = l0 ++ [e])
    \/ (k = key /\ ~ In key (map fst d) /\ l = [e]).
Proof.
  induction d as [|[k0 l0] d IH]; intros Hnd k l.
  - simpl. split.
    + intros [H|[]]. injection H as <- <-. right. right. tauto.
    + intros [[_ []]|[(_ & l1 & [] & _)|(-> & _ & ->)]]. left; reflexivity.
  - inversion Hnd as [|? ? Hnotin Hnd']; subst. cbn [dict_append].
    destruct (str_eqb k0 key) eqn:Hk.
    + apply str_eqb_eq in Hk. subst k0. cbn [In map fst]. split.
      * intros [H|H].
        -- injection H as <- <-. right. left. split; [reflexivity|].
           exists l0. split; [left; reflexivity | reflexivity].
        -- left. split; [|right; exact H].
           intros ->. apply Hnotin. apply (in_map fst _ _ H).
      * intros [[Hne [H|H]]|[(-> & l1 & [H|H] & ->)|(-> & Hn & _)]].
        -- injection H as -> _. contradiction.
        -- right. exact H.
        -- injection H as ->. left. reflexivity.
        -- exfalso. apply Hnotin. apply (in_map fst _ _ H).
        -- exfalso. apply Hn. left. reflexivity.
    + apply str_eqb_neq in Hk. cbn [In map fst]. rewrite (IH Hnd' k l). split.
      * intros [H|[[Hne H]|[(-> & l1 & H & ->)|(-> & Hn & ->)]]].
        -- injection H as <- <-. left. split; [exact Hk | left; reflexivity].
        -- left. split; [exact Hne | right; exact H].
        -- right. left. split; [reflexivity|]. exists l1.
           split; [right; exact H | reflexivity].
        -- right. right. split; [reflexivity|]. split; [|reflexivity].
           intros [H|H]; [contradiction | apply Hn, H].
      * intros [[Hne [H|H]]|[(-> & l1 & [H|H] & ->)|(-> & Hn & ->)]].
        -- left. exact H.
        -- right. left. split; assumption.
        -- injection H as -> _. contradiction.
        -- right. right. left. split; [reflexivity|]. exists l1.
           split; [exact H | reflexivity].
        -- right. right. right. split; [reflexivity|]. split; [|reflexivity].
           intros H. apply Hn. right. exact H.
Qed.

Lemma filter_none (A : Type) (f : A -> bool) (l : list A) :
  (forall x, In x l -> f x = false) -> filter f l = [].
Proof.
  induction l as [|x l IH]; intros H; [reflexivity|]. simpl.
  rewrite (H x (or_introl eq_refl)). apply IH.
  intros y Hy. apply H. right. exact Hy.
Qed.

Lemma errors_by_file_snoc (errors : list LabelValidationError)
    (e : LabelValidationError) :
  errors_by_file (errors ++ [e])
  = dict_append (errors_by_file errors) (filename e) e.
Proof. unfold errors_by_file. rewrite fold_left_app. reflexivity. Qed.

Lemma errors_by_file_invariant (errors : list LabelValidationError) :
  NoDup (map fst (errors_by_file errors))
  /\ (forall k l, In (k, l) (errors_by_file errors) ->
      l <> [] /\ l = filter (fun e => str_eqb (filename e) k) errors)
  /\ (forall e, In e errors -> In (filename e) (map fst (errors_by_file errors))).
Proof.
  induction errors as [|e errors (Hnd & Hgroups & Hkeys)] using rev_ind.
  - cbn. repeat split; [constructor | contradiction | contradiction |
                        contradiction].
  - rewrite errors_by_file_snoc.
    set (d := errors_by_file errors) in *.
    destruct (in_dec (list_eq_dec N.eq_dec) (filename e) (map fst d))
      as [Hin|Hnin].
    + split; [rewrite (dict_append_keys_present d _ e Hin); exact Hnd|]. split.
      * intros k l H. apply (dict_append_In d _ e Hnd) in H.
        rewrite filter_app. cbn [filter].
        destruct H as [[Hne H]|[(-> & l0 & H & ->)|(_ & Hn & _)]].
        -- destruct (Hgroups k l H) as [H1 H2]. split; [exact H1|].
           replace (str_eqb (filename e) k) with false
             by (symmetry; apply str_eqb_neq; congruence).
           rewrite app_nil_r. exact H2.
        -- destruct (Hgroups _ l0 H) as [H1 H2].
           split; [destruct l0; discriminate|].
           rewrite str_eqb_refl, <- H2. reflexivity.
        -- contradiction.
      * intros e' H. rewrite (dict_append_keys_present d _ e Hin).
        apply in_app_iff in H as [H|[<-|[]]]; [apply Hkeys, H | exact Hin].
    + rewrite (dict_append_keys_absent d _ e Hnin). rewrite map_app.
      cbn [map fst]. split; [|split].
      * apply NoDup_app; [exact Hnd | repeat constructor; intros [] |].
        intros k Hk [<-|[]]. contradiction.
      * intros k l H. rewrite filter_app. cbn [filter].
        apply in_app_iff in H as [H|[H|[]]].
        -- destruct (Hgroups k l H) as [H1 H2]. split; [exact H1|].
           replace (str_eqb (filename e) k) with false.
           ++ rewrite app_nil_r. exact H2.
           ++ symmetry. apply str_eqb_neq. intros Heq. apply Hnin.
              rewrite Heq. apply (in_map fst _ _ H).
        -- injection H as <- <-. split; [discriminate|].
           rewrite str_eqb_refl.
           replace (filter (fun e0 => str_eqb (filename e0) (filename e)) errors)
             with (@nil LabelValidationError); [reflexivity|].
           symmetry. apply filter_none. intros e' He'.
           apply str_eqb_neq. intros Heq. apply Hnin. rewrite <- Heq.
           apply Hkeys, He'.
      * intros e' H. apply in_app_iff.
        apply in_app_iff in H as [H|[<-|[]]];
          [left; apply Hkeys, H | right; left; reflexivity].
Qed.

(** X13: in the dictionary [main] builds, the keys are pairwise different,
    the group of a key is not empty and holds exactly the findings with that
    file name, in the order they were found, and every finding is in the
    group of its file name. *)
Theorem findings_grouped_by_file_name :
  forall errors : list LabelValidationError,
    NoDup (map fst (errors_by_file errors))
    /\ (forall (k : str) (l : list LabelValidationError),
           In (k, l) (errors_by_file errors) ->
           l <> [] /\ l = filter (fun e => str_eqb (filename e) k) errors)
    /\ (forall e : LabelValidationError,
           In e errors ->
           exists l, In (filename e, l) (errors_by_file errors) /\ In e l).
Proof.
  intros errors.
  destruct (errors_by_file_invariant errors) as (Hnd & Hgroups & Hkeys).
  split; [exact Hnd|]. split; [exact Hgroups|].
  intros e He. apply Hkeys in He as Hk.
  apply in_map_iff in Hk as ([k l] & Hfst & Hin). cbn in Hfst. subst k.
  exists l. split; [exact Hin|].
  destruct (Hgroups _ l Hin) as [_ ->].
  apply filter_In. split; [exact He | apply str_eqb_refl].
Qed.

Lemma findings_grouped_by_file_name_witness :
  exists l,
    In (u "b.txt", l)
       (errors_by_file
          [LabelValidationError_init (u "a.txt") 1 (u "x") (u "r1");
           LabelValidationError_init (u "b.txt") 2 (u "y") (u "r2");
           LabelValidationError_init (u "a.txt") 3 (u "z") (u "r3")])
    /\ In (LabelValidationError_init (u "b.txt") 2 (u "y") (u "r2")) l.
Proof.
  apply (proj2 (proj2 (findings_grouped_by_file_name _))
               (LabelValidationError_init (u "b.txt") 2 (u "y") (u "r2"))).
  right. left. reflexivity.
Defined.

(** *** [sorted(errors_by_file.items())] *)

Lemma insert_item_perm (it : str * list LabelValidationError)
    (l : list (str * list LabelValidationError)) :
  Permutation (it :: l) (insert_item it l).
Proof.
  induction l as [|x l IH]; simpl; [apply Permutation_refl|].
  destruct (str_ltb (fst it) (fst x)); [apply Permutation_refl|].
  apply (perm_trans (perm_swap x it l)). apply perm_skip, IH.
Qed.

Lemma insert_item_sorted (it : str * list LabelValidationError)
    (l : list (str * list LabelValidationError)) :
  Sorted key_le l -> Sorted key_le (insert_item it l).
Proof.
  induction l as [|x l IH]; intros Hs; simpl.
  - repeat constructor.
  - destruct (str_ltb (fst it) (fst x)) eqn:Hlt.
    + constructor; [exact Hs|]. constructor. unfold key_le.
      apply str_ltb_asym, Hlt.
    + inversion Hs as [|? ? Hs' Hhd]; subst.
      constructor; [apply IH, Hs'|].
      destruct l as [|y l]; simpl.
      * constructor. exact Hlt.
      * destruct (str_ltb (fst it) (fst y)).
        -- constructor. exact Hlt.
        -- inversion Hhd; subst. constructor. assumption.
Qed.

Lemma sorted_items_perm (d : list (str * list LabelValidationError)) :
  Permutation d (sorted_items d).
Proof.
  unfold sorted_items. induction d as [|it d IH]; simpl; [constructor|].
  apply (perm_trans (perm_skip it IH)). apply insert_item_perm.
Qed.

Lemma sorted_items_sorted (d : list (str * list LabelValidationError)) :
  Sorted key_le (sorted_items d).
Proof.
  unfold sorted_items. induction d as [|it d IH]; simpl; [constructor|].
  apply insert_item_sorted, IH.
Qed.

Lemma str_ltb_total (a b : str) :
  str_ltb b a = false -> a <> b -> str_ltb a b = true.
Proof.
  revert b. induction a as [|x a IH]; intros [|y b]; simpl; try congruence.
  intros H Hne. apply orb_false_iff in H as [H1 H2].
  apply N.ltb_ge in H1. destruct (N.eqb_spec y x) as [->|Hyx].
  - rewrite N.ltb_irrefl, N.eqb_refl. simpl. simpl in H2.
    apply IH; [exact H2 | congruence].
  - replace (x <? y)%N with true by (symmetry; apply N.ltb_lt; lia).
    reflexivity.
Qed.

Lemma sorted_distinct_keys (l : list (str * list LabelValidationError)) :
  Sorted key_le l -> NoDup (map fst l) -> Sorted key_lt l.
Proof.
  induction 1 as [|a l Hs IH Hhd]; intros Hnd; [constructor|].
  inversion Hnd as [|? ? Hnotin Hnd']; subst.
  constructor; [apply IH, Hnd'|].
  destruct Hhd as [|b l Hab]; constructor.
  apply str_ltb_total; [exact Hab|].
  intros Heq. apply Hnotin. left. symmetry. exact Heq.
Qed.

(** X14: sorting the items of a dictionary keeps each item once and puts
    them in an order in which no item comes before one of smaller key; for
    the dictionary of the findings, whose keys differ, the file names of the
    listing are strictly ascending in the order of their code points. *)
Theorem listing_sorted_by_file_name :
  (forall d : list (str * list LabelValidationError),
      Permutation d (sorted_items d) /\ Sorted key_le (sorted_items d))
  /\ (forall errors : list LabelValidationError,
         Sorted key_lt (sorted_items (errors_by_file errors))).
Proof.
  split.
  - intros d. split; [apply sorted_items_perm | apply sorted_items_sorted].
  - intros errors. apply sorted_distinct_keys; [apply sorted_items_sorted|].
    apply (Permutation_NoDup (l := map fst (errors_by_file errors)));
      [apply Permutation_map, sorted_items_perm|].
    apply (errors_by_file_invariant errors).
Qed.

(** *** What [main] prints *)

Ltac pick_disjunct :=
  solve [assumption | reflexivity] || (left; pick_disjunct)
  || (right; pick_disjunct).

Lemma main_output_with_findings (fs : filesystem)
    (e0 : LabelValidationError) (rest : list LabelValidationError) :
  path_exists fs dataset_path = true ->
  all_errors (scan_dataset fs dataset_path) = e0 :: rest ->
  forall s : str,
    In s (listing (sorted_items (errors_by_file (e0 :: rest)))) ->
    In s (fst (main fs)).
Proof.
  intros Hroot Herr s Hs. unfold main. rewrite Hroot. cbn [negb]. cbv zeta.
  rewrite Herr. cbn [fst]. unfold listing, errors_by_file in Hs.
  rewrite !in_app_iff. pick_disjunct.
Qed.

Lemma print_error_reason (e : LabelValidationError) :
  In (u "   " ++ [0x2192%N] ++ u " " ++ reason e) (print_error e)
  /\ ((0 < line_num e)%Z ->
      In (u "   Line " ++ str_of_Z (line_num e) ++ u ": '"
            ++ line_content e ++ u "'") (print_error e)).
Proof.
  unfold print_error. split.
  - apply in_app_iff. right. left. reflexivity.
  - intros H. apply Z.ltb_lt in H. rewrite H. left. reflexivity.
Qed.

(** X15: when the dataset root exists, every finding of the scan is shown
    in the report: the output holds the heading of its file, the line with
    its reason and, for a finding of a line, the line with its number and
    text. *)
Theorem report_shows_every_finding :
  forall (fs : filesystem) (e : LabelValidationError),
    path_exists fs dataset_path = true ->
    In e (all_errors (scan_dataset fs dataset_path)) ->
    In (nl ++ u "File: " ++ filename e ++ u ":") (fst (main fs))
    /\ In (u "   " ++ [0x2192%N] ++ u " " ++ reason e) (fst (main fs))
    /\ ((0 < line_num e)%Z ->
        In (u "   Line " ++ str_of_Z (line_num e) ++ u ": '"
              ++ line_content e ++ u "'") (fst (main fs))).
Proof.
  intros fs e Hroot Hin.
  destruct (all_errors (scan_dataset fs dataset_path)) as [|e0 rest] eqn:Herr;
    [destruct Hin|].
  pose proof (main_output_with_findings fs e0 rest Hroot Herr) as Hout.
  destruct (errors_by_file_invariant (e0 :: rest)) as (_ & Hgroups & Hkeys).
  pose proof (Hkeys e Hin) as Hk.
  apply in_map_iff in Hk as ([k l] & Hfst & Hitem). cbn in Hfst. subst k.
  assert (Hel : In e l).
  { destruct (Hgroups _ l Hitem) as [_ ->]. apply filter_In.
    split; [exact Hin | apply str_eqb_refl]. }
  apply (Permutation_in _ (sorted_items_perm _)) in Hitem.
  assert (Hshow : forall s,
             s = nl ++ u "File: " ++ filename e ++ u ":"
             \/ In s (print_error e) ->
             In s (fst (main fs))).
  { intros s Hs. apply Hout.
    unfold listing. apply in_flat_map. exists (filename e, l).
    split; [exact Hitem|]. cbn [fst snd]. destruct Hs as [->|Hs].
    - left. reflexivity.
    - right. apply in_flat_map. exists e. split; assumption. }
  destruct (print_error_reason e) as [Hr Hl].
  split; [apply Hshow; left; reflexivity|].
  split; [apply Hshow; right; exact Hr|].
  intros Hpos. apply Hshow. right. apply Hl, Hpos.
Qed.

Lemma report_shows_every_finding_witness :
  In (u "   " ++ [0x2192%N] ++ u " " ++ u "width must be > 0, found: 0.0")
     (fst (main (sample_fs (Bytes sample_bytes)))).
Proof.
  refine (proj1 (proj2 (report_shows_every_finding
                          (sample_fs (Bytes sample_bytes))
                          (LabelValidationError_init (u "a.txt") 3
                             (u "0 0.5 0.5 0 0.2")
                             (u "width must be > 0, found: 0.0"))
                          eq_refl _))).
  vm_compute. left. reflexivity.
Defined.

Lemma scan_output_heads (fs : filesystem) (root : Path) (s : str) :
  In s (printed (scan_dataset fs root)) ->
  hd 0%N s = 0x57%N \/ hd 0%N s = 0xa%N \/ hd 0%N s = 0x20%N.
Proof.
  destruct (scan_dataset_state fs root) as (_ & _ & _ & ->).
  assert (H : forall sp, In s (split_report fs root sp) ->
                hd 0%N s = 0x57%N \/ hd 0%N s = 0xa%N \/ hd 0%N s = 0x20%N).
  { intros sp. unfold split_report.
    destruct (path_exists fs (labels_dir root sp)).
    - intros [<-|[<-|[]]]; [right; left; reflexivity|].
      destruct (sorted_glob_txt fs (labels_dir root sp)); right; right;
        reflexivity.
    - intros [<-|[]]. left. reflexivity. }
  intros Hin. apply in_app_iff in Hin as [Hin|Hin]; eapply H; exact Hin.
Qed.

Lemma listing_heads (items : list (str * list LabelValidationError)) (s : str) :
  In s (listing items) -> hd 0%N s = 0xa%N \/ hd 0%N s = 0x20%N.
Proof.
  unfold listing. intros H. apply in_flat_map in H as (item & _ & [<-|H]).
  - left. reflexivity.
  - apply in_flat_map in H as (e & _ & H). unfold print_error in H.
    apply in_app_iff in H as [H|[<-|[]]]; [|right; reflexivity].
    destruct (0 <? line_num e)%Z; [|destruct H].
    destruct H as [<-|[]]. right. reflexivity.
Qed.

Ltac lines_differ H :=
  first [ apply (f_equal (hd 0%N)) in H; lazy in H; discriminate H
        | apply (f_equal (fun s : str => nth 7 s 0%N)) in H; lazy in H;
          discriminate H ].

Ltac not_printed H :=
  rewrite ?in_app_iff in H; cbn [In] in H;
  repeat match goal with
         | K : _ \/ _ |- _ => destruct K as [K|K]
         end;
  try contradiction;
  try (lines_differ H);
  try (apply scan_output_heads in H; lazy in H;
       destruct H as [H|[H|H]]; discriminate H);
  try (apply listing_heads in H; lazy in H; destruct H as [H|H];
       discriminate H).

(** X16: the banner that is printed agrees with the exit status: the line
    [SUCCESS: ALL LABELS ARE VALID] is in the output exactly when the status
    is 0, and the line [ERROR: CORRUPT LABELS DETECTED] exactly when the
    dataset root exists and the scan made a finding. *)
Theorem banner_agrees_with_exit_status :
  forall fs : filesystem,
    (In (u "SUCCESS: ALL LABELS ARE VALID") (fst (main fs)) <->
     snd (main fs) = 0%Z)
    /\ (In (u "ERROR: CORRUPT LABELS DETECTED") (fst (main fs)) <->
        path_exists fs dataset_path = true
        /\ all_errors (scan_dataset fs dataset_path) <> []).
Proof.
  intros fs. unfold main.
  destruct (path_exists fs dataset_path) eqn:Hroot; cbn [negb].
  - cbv zeta.
    destruct (all_errors (scan_dataset fs dataset_path)) as [|e0 rest] eqn:Herr;
      cbn [fst snd].
    + split; split.
      * reflexivity.
      * intros _. rewrite !in_app_iff. pick_disjunct.
      * intros H. exfalso. not_printed H.
      * intros [_ H]. contradiction.
    + fold (errors_by_file (e0 :: rest)).
      fold (listing (sorted_items (errors_by_file (e0 :: rest)))).
      split; split.
      * intros H. exfalso. not_printed H.
      * discriminate.
      * intros _. split; [reflexivity | discriminate].
      * intros _. rewrite !in_app_iff. pick_disjunct.
  - cbn [fst snd]. split; split.
    + intros H. exfalso. not_printed H.
    + discriminate.
    + intros H. exfalso. not_printed H.
    + intros [H _]. discriminate.
Qed.
